(** * The RightScale deployment resource of the Terraform provider

    A shallow embedding of package [rs] (resource.go and
    resource_deployment.go): the generic read / delete / exists callbacks,
    the locator parser, and the create / update callbacks of the deployment
    resource, together with the properties the design document states about
    them.

    The two collaborators of the package are outside of it and are modelled
    by their interface only:
    - the host framework's [*schema.ResourceData] (module [schema]);
    - the remote API client [rsc.Client] (module [rsc]), an arbitrary
      implementation of the five operations over an arbitrary remote state. *)

From Stdlib Require Import String Ascii List Bool Arith Lia.
From stdpp Require Import base option gmap strings.

Import ListNotations.
Open Scope string_scope.

(** ** Go values *)

(** The Go [error] values that flow through the package.  [ErrNotFound] is
    the sentinel [rsc.ErrNotFound], compared by identity in the source;
    [ErrInvalidResourceID id] is the value built by
    [fmt.Errorf("invalid resource ID %q", id)]; [ErrorString msg] is any other
    error, in particular the ones made by [errors.New] and the ones a client
    reports. *)
Inductive error : Type :=
| ErrNotFound
| ErrInvalidResourceID (id : string)
| ErrorString (msg : string).

#[global] Instance error_eq_dec : EqDecision error.
Proof. solve_decision. Defined.

(** A fallible Go result [(T, error)] in which exactly one side is non-nil. *)
Inductive result (A : Type) : Type :=
| Ok (a : A)
| Err (e : error).
Arguments Ok {A} a.
Arguments Err {A} e.

(** The dynamic values an [interface{}] holds here: the schema has only
    strings and one boolean. *)
Inductive Value : Type :=
| VNil
| VBool (b : bool)
| VString (s : string).

#[global] Instance Value_eq_dec : EqDecision Value.
Proof. solve_decision. Defined.

(** ** [strings.Split] for a separator of one byte

    The parts of [s] between the occurrences of [sep], in order; a string
    without the separator (the empty one included) is its own single part. *)
Fixpoint strings_Split (sep : ascii) (s : string) : list string :=
  match s with
  | EmptyString => [EmptyString]
  | String c rest =>
      if Ascii.eqb c sep then EmptyString :: strings_Split sep rest
      else match strings_Split sep rest with
           | p :: ps => String c p :: ps
           | [] => [String c EmptyString]
           end
  end.

(** [strings.Count] for a separator of one byte. *)
Fixpoint strings_Count (sep : ascii) (s : string) : nat :=
  match s with
  | EmptyString => 0
  | String c rest =>
      (if Ascii.eqb c sep then 1 else 0) + strings_Count sep rest
  end.

(** ** Package rsc: locators, resources and the client interface *)
Module rsc.

Record Locator : Type := mkLocator { Namespace : string; Href : string }.

(** [rsc.Fields] is [map[string]interface{}]. *)
Abbreviation Fields := (gmap string Value).

(** A resource as the client returns it.  The callbacks only range over
    its fields; the list gives the entries in the order the runtime visits
    them, which Go leaves unspecified. *)
Record Resource : Type := mkResource {
  Loc : Locator;
  ResFields : list (string * Value)
}.

(** One call to the remote client, with its arguments. *)
Inductive Call : Type :=
| CallCreate (namespace typ : string) (fields : Fields)
| CallGet (loc : Locator)
| CallUpdate (loc : Locator) (fields : Fields)
| CallDelete (loc : Locator)
| CallRun (loc : Locator) (script : string).

(** The interface [rsc.Client] over a remote state [S].  [Create] and [Get]
    return a resource pointer and an error: an error, or a pointer that may
    be nil. *)
Record Client (S : Type) : Type := mkClient {
  Create : string -> string -> Fields -> S -> result (option Resource) * S;
  Get : Locator -> S -> result (option Resource) * S;
  Update : Locator -> Fields -> S -> option error * S;
  Delete : Locator -> S -> option error * S;
  Run : Locator -> string -> S -> option error * S
}.
Arguments mkClient {S} _ _ _ _ _.
Arguments Create {S} _ _ _ _ _.
Arguments Get {S} _ _ _.
Arguments Update {S} _ _ _ _.
Arguments Delete {S} _ _ _.
Arguments Run {S} _ _ _ _.

End rsc.

#[global] Instance Locator_eq_dec : EqDecision rsc.Locator.
Proof. solve_decision. Defined.

(** ** Package schema: the host framework's resource data *)
Module schema.

Inductive ValueType : Type := TypeBool | TypeString.

(** [Type.Zero()]. *)
Definition Zero (t : ValueType) : Value :=
  match t with
  | TypeBool => VBool false
  | TypeString => VString ""
  end.

Definition hasType (t : ValueType) (v : Value) : bool :=
  match t, v with
  | TypeBool, VBool _ => true
  | TypeString, VString _ => true
  | _, _ => false
  end.

(** The attributes of [schema.Schema] that the deployment schema uses. *)
Record Schema : Type := mkSchema {
  Description : string;
  Type_ : ValueType;
  Required : bool;
  Optional : bool;
  InputDefault : string;
  ForceNew : bool;
  ValidateFunc : option (Value -> string -> list string * list error)
}.

(** [schema.ResourceData]: the identifier, the attribute values that have
    been set, the partial-state mode with its keys, the schema the data
    belongs to, and the field writer behind [Set].  The writer is the
    host's own: nothing is assumed of it but that it acts on the attribute
    values. *)
Record ResourceData : Type := mkResourceData {
  id : string;
  raw : gmap string Value;
  partial : bool;
  partialKeys : list string;
  sch : gmap string Schema;
  setWriter : string -> Value -> gmap string Value -> gmap string Value
}.

(** [d.Id()]. *)
Definition Id (d : ResourceData) : string := id d.

(** [d.SetId(v)]. *)
Definition SetId (v : string) (d : ResourceData) : ResourceData :=
  mkResourceData v (raw d) (partial d) (partialKeys d) (sch d) (setWriter d).

(** [d.Set(key, value)]; the callers drop the error it may report. *)
Definition Set_ (key : string) (value : Value) (d : ResourceData)
  : ResourceData :=
  mkResourceData (id d) (setWriter d key value (raw d)) (partial d)
    (partialKeys d) (sch d) (setWriter d).

(** [d.Partial(on)]. *)
Definition Partial (on : bool) (d : ResourceData) : ResourceData :=
  mkResourceData (id d) (raw d) on (partialKeys d) (sch d) (setWriter d).

(** [d.SetPartial(key)]. *)
Definition SetPartial (key : string) (d : ResourceData) : ResourceData :=
  mkResourceData (id d) (raw d) (partial d) (partialKeys d ++ [key]) (sch d)
    (setWriter d).

(** The value stored for [key], when the schema declares the key and the
    value has the declared type. *)
Definition stored (d : ResourceData) (key : string) : option Value :=
  match sch d !! key, raw d !! key with
  | Some s, Some v => if hasType (Type_ s) v then Some v else None
  | _, _ => None
  end.

(** [d.Get(key)]: the value of the key, the zero value of its type when it
    is not set, nil for a key the schema does not have. *)
Definition Get (d : ResourceData) (key : string) : Value :=
  match sch d !! key with
  | None => VNil
  | Some s => default (Zero (Type_ s)) (stored d key)
  end.

(** [d.GetOk(key)]: the value, and whether the key has been set to a value
    that is not the zero value of its type. *)
Definition GetOk (d : ResourceData) (key : string) : Value * bool :=
  (Get d key,
   match sch d !! key, stored d key with
   | Some s, Some v => negb (bool_decide (v = Zero (Type_ s)))
   | _, _ => false
   end).

End schema.

(** ** The effects of a callback

    A callback runs against the resource data it was handed (a pointer in
    the source, mutated in place) and the remote service behind the client.
    The world also records every call made to the client, in order, with
    the error it came back with. *)
Record World (S : Type) : Type := mkWorld {
  data : schema.ResourceData;
  remote : S;
  calls : list (rsc.Call * option error)
}.
Arguments mkWorld {S} _ _ _.
Arguments data {S} _.
Arguments remote {S} _.
Arguments calls {S} _.

(** A Go function returns, or panics (nil dereference, failed type
    assertion). *)
Inductive Outcome (A : Type) : Type :=
| Returns (a : A)
| Panics.
Arguments Returns {A} a.
Arguments Panics {A}.

Definition M (S A : Type) : Type := World S -> Outcome A * World S.

Definition ret {S A} (a : A) : M S A := fun w => (Returns a, w).

Definition bind {S A B} (m : M S A) (k : A -> M S B) : M S B :=
  fun w =>
    match m w with
    | (Returns a, w') => k a w'
    | (Panics, w') => (Panics, w')
    end.

Definition panic {S A} : M S A := fun w => (Panics, w).

#[global] Instance M_ret {S} : MRet (M S) := fun A a => ret a.
#[global] Instance M_bind {S} : MBind (M S) := fun A B k m => bind m k.

(** Reading and mutating the resource data behind the pointer [d]. *)
Definition getData {S} : M S schema.ResourceData :=
  fun w => (Returns (data w), w).

Definition modifyData {S} (f : schema.ResourceData -> schema.ResourceData)
  : M S unit :=
  fun w => (Returns tt, mkWorld (f (data w)) (remote w) (calls w)).

(** The error side of a result. *)
Definition errOf {A} (r : result A) : option error :=
  match r with
  | Ok _ => None
  | Err e => Some e
  end.

(** The five client operations as recorded effects. *)
Definition callCreate {S} (client : rsc.Client S) (namespace typ : string)
    (fields : rsc.Fields) : M S (result (option rsc.Resource)) :=
  fun w =>
    let '(r, s') := rsc.Create client namespace typ fields (remote w) in
    (Returns r,
     mkWorld (data w) s'
       (calls w ++ [(rsc.CallCreate namespace typ fields, errOf r)])).

Definition callGet {S} (client : rsc.Client S) (loc : rsc.Locator)
  : M S (result (option rsc.Resource)) :=
  fun w =>
    let '(r, s') := rsc.Get client loc (remote w) in
    (Returns r, mkWorld (data w) s' (calls w ++ [(rsc.CallGet loc, errOf r)])).

Definition callUpdate {S} (client : rsc.Client S) (loc : rsc.Locator)
    (fields : rsc.Fields) : M S (option error) :=
  fun w =>
    let '(e, s') := rsc.Update client loc fields (remote w) in
    (Returns e,
     mkWorld (data w) s' (calls w ++ [(rsc.CallUpdate loc fields, e)])).

Definition callDelete {S} (client : rsc.Client S) (loc : rsc.Locator)
  : M S (option error) :=
  fun w =>
    let '(e, s') := rsc.Delete client loc (remote w) in
    (Returns e, mkWorld (data w) s' (calls w ++ [(rsc.CallDelete loc, e)])).

Definition callRun {S} (client : rsc.Client S) (loc : rsc.Locator)
    (script : string) : M S (option error) :=
  fun w =>
    let '(e, s') := rsc.Run client loc script (remote w) in
    (Returns e, mkWorld (data w) s' (calls w ++ [(rsc.CallRun loc script, e)])).

(** [res.Fields], [res.Locator] on a pointer: nil panics. *)
Definition deref {S} (res : option rsc.Resource) : M S rsc.Resource :=
  match res with
  | Some r => ret r
  | None => panic
  end.

(** The type assertion [v.(bool)]. *)
Definition assertBool {S} (v : Value) : M S bool :=
  match v with
  | VBool b => ret b
  | _ => panic
  end.

(** [for k, v := range fields { body }]. *)
Fixpoint forRange {S} (fields : list (string * Value))
    (body : string -> Value -> M S unit) : M S unit :=
  match fields with
  | [] => ret tt
  | (k, v) :: rest => body k v ;; forRange rest body
  end.

(** ** resource.go *)

(** [locator] builds a locator from the identifier of the resource data. *)
Definition locator (d : schema.ResourceData) : result rsc.Locator :=
  let parts := strings_Split ":"%char (schema.Id d) in
  if negb (List.length parts =? 2)%nat
  then Err (ErrInvalidResourceID (schema.Id d))
  else Ok (rsc.mkLocator (nth 0 parts "") (nth 1 parts "")).

(** [handleRSCError]: the not-found sentinel clears the identifier and
    becomes nil; any other error is returned as it is. *)
Definition handleRSCError {S} (err : error) : M S (option error) :=
  if bool_decide (err = ErrNotFound) then
    modifyData (schema.SetId "") ;; ret None
  else ret (Some err).

Definition resourceRead {S} (client : rsc.Client S) : M S (option error) :=
  d ← getData;
  match locator d with
  | Err err => ret (Some err)
  | Ok loc =>
      r ← callGet client loc;
      match r with
      | Err err => handleRSCError err
      | Ok res =>
          res ← deref res;
          forRange (rsc.ResFields res)
            (fun k v => modifyData (schema.Set_ k v));;
          ret None
      end
  end.

Definition resourceDelete {S} (client : rsc.Client S) : M S (option error) :=
  d ← getData;
  match locator d with
  | Err err => ret (Some err)
  | Ok loc => callDelete client loc
  end.

Definition resourceExists {S} (client : rsc.Client S)
  : M S (bool * option error) :=
  d ← getData;
  match locator d with
  | Err err => ret (false, Some err)
  | Ok loc =>
      r ← callGet client loc;
      match r with
      | Err err => ret (false, Some err)
      | Ok res => ret (bool_decide (res <> None), None)
      end
  end.

(** ** resource_deployment.go *)

(** The byte 0x22, for the messages that quote a word. *)
Definition dquote : string := String (ascii_of_nat 34) EmptyString.

(** The [ValidateFunc] of [server_tag_scope]. *)
Definition server_tag_scope_ValidateFunc (v : Value) (_ : string)
  : list string * list error :=
  if bool_decide (v = VString "") || bool_decide (v = VString "account")
     || bool_decide (v = VString "deployment")
  then ([], [])
  else ([], [ErrorString
               ("server_tag_scope must be " ++ dquote ++ "account" ++ dquote
                ++ " or " ++ dquote ++ "deployment" ++ dquote)]).

Definition deploymentSchema : gmap string schema.Schema :=
  list_to_map
    [ ("name",
       schema.mkSchema "name of deployment" schema.TypeString
         true false "" false None);
      ("description",
       schema.mkSchema "description of deployment" schema.TypeString
         false true "" false None);
      ("resource_group_href",
       schema.mkSchema
         "href of the Windows Azure Resource Group attached to the deployment"
         schema.TypeString false true "" false None);
      ("locked",
       schema.mkSchema "whether deployment is locked" schema.TypeBool
         false true "" false None);
      ("server_tag_scope",
       schema.mkSchema
         "routing scope for tags for servers in the deployment"
         schema.TypeString false true "deployment" true
         (Some server_tag_scope_ValidateFunc)) ].

(** [deploymentFields]: the fields sent to the client on create and update. *)
Definition deploymentFields (d : schema.ResourceData) : rsc.Fields :=
  let fields : rsc.Fields := {[ "name" := schema.Get d "name" ]} in
  let fields :=
    match schema.GetOk d "description" with
    | (desc, true) => <[ "description" := desc ]> fields
    | (_, false) => fields
    end in
  let fields :=
    match schema.GetOk d "resource_group_href" with
    | (rghref, true) => <[ "resource_group_href" := rghref ]> fields
    | (_, false) => fields
    end in
  let fields :=
    match schema.GetOk d "server_tag_scope" with
    | (scope, true) => <[ "server_tag_scope" := scope ]> fields
    | (_, false) => fields
    end in
  fields.

(** [updateLock] locks or unlocks the deployment according to the value of
    the "locked" field. *)
Definition updateLock {S} (client : rsc.Client S) : M S (option error) :=
  d ← getData;
  match locator d with
  | Err err => ret (Some err)
  | Ok loc =>
      lock ← assertBool (schema.Get d "locked");
      if lock : bool then callRun client loc "@res.lock()"
      else callRun client loc "@res.unlock()"
  end.

Definition resourceDeploymentCreate {S} (client : rsc.Client S)
  : M S (option error) :=
  d ← getData;
  mustLock ← (let '(locked, ok) := schema.GetOk d "locked" in
              if ok then assertBool locked else ret false);
  r ← callCreate client "rs_cm" "deployment" (deploymentFields d);
  match r with
  | Err err => ret (Some err)
  | Ok res =>
      res ← deref res;
      forRange (rsc.ResFields res) (fun k v => modifyData (schema.Set_ k v));;
      failed ←
        (if mustLock : bool then
           e ← updateLock client;
           match e with
           | Some err =>
               (* attempt to delete the deployment, ignore errors *)
               callDelete client (rsc.Loc res);; ret (Some err)
           | None =>
               modifyData (schema.Set_ "locked" (VBool true));; ret None
           end
         else ret None);
      match failed with
      | Some err => ret (Some err)
      | None =>
          (* set ID last *)
          modifyData
            (schema.SetId
               (rsc.Namespace (rsc.Loc res) ++ ":" ++ rsc.Href (rsc.Loc res)));;
          ret None
      end
  end.

(** [handleError] is called by the update callback and defined in neither
    file of the package: it is a parameter here, a function of the resource
    data and the error as in the source, which has no access to the
    client. *)
Definition HandleError : Type :=
  schema.ResourceData -> error -> schema.ResourceData * option error.

Definition callHandleError {S} (handleError : HandleError) (err : error)
  : M S (option error) :=
  fun w =>
    let '(d', e) := handleError (data w) err in
    (Returns e, mkWorld d' (remote w) (calls w)).

Definition resourceDeploymentUpdate {S} (handleError : HandleError)
    (client : rsc.Client S) : M S (option error) :=
  modifyData (schema.Partial true);;
  d ← getData;
  match locator d with
  | Err err => ret (Some err)
  | Ok loc =>
      (* update lock *)
      e ← updateLock client;
      match e with
      | Some err => callHandleError handleError err
      | None =>
          modifyData (schema.SetPartial "locked");;
          (* then the other fields *)
          d ← getData;
          e ← callUpdate client loc (deploymentFields d);
          match e with
          | Some err => callHandleError handleError err
          | None => modifyData (schema.Partial false);; ret None
          end
      end
  end.

(** [schema.Resource] as [resourceDeployment] fills it in. *)
Record Resource (S : Type) : Type := mkResource {
  Schema : gmap string schema.Schema;
  Read : rsc.Client S -> M S (option error);
  Exists : rsc.Client S -> M S (bool * option error);
  Delete : rsc.Client S -> M S (option error);
  Create : rsc.Client S -> M S (option error);
  Update : rsc.Client S -> M S (option error)
}.
Arguments mkResource {S} _ _ _ _ _ _.
Arguments Schema {S} _.
Arguments Read {S} _ _.
Arguments Exists {S} _ _.
Arguments Delete {S} _ _.
Arguments Create {S} _ _.
Arguments Update {S} _ _.

Definition resourceDeployment {S} (handleError : HandleError) : Resource S :=
  mkResource deploymentSchema resourceRead resourceExists
    resourceDelete (* can fail if deployment is locked *)
    resourceDeploymentCreate (resourceDeploymentUpdate handleError).

(** ** Sample data and clients

    Resource data with the deployment schema and a writer that stores what
    it is given, and clients that answer every call in a fixed way; the
    remote state counts the calls served. *)
Definition storeWriter (key : string) (value : Value)
    (m : gmap string Value) : gmap string Value :=
  <[ key := value ]> m.

Definition deploymentData (ident : string) (attrs : list (string * Value))
  : schema.ResourceData :=
  schema.mkResourceData ident (list_to_map attrs) false [] deploymentSchema
    storeWriter.

Definition fixedClient (create get : result (option rsc.Resource))
    (update delete run : option error) : rsc.Client nat :=
  rsc.mkClient
    (fun _ _ _ n => (create, S n))
    (fun _ n => (get, S n))
    (fun _ _ n => (update, S n))
    (fun _ n => (delete, S n))
    (fun _ _ n => (run, S n)).

Definition sampleLocator : rsc.Locator :=
  rsc.mkLocator "rs_cm" "/api/deployments/42".

Definition sampleResource : rsc.Resource :=
  rsc.mkResource sampleLocator
    [("name", VString "web"); ("description", VString "front end")].

(** A client on which every operation succeeds. *)
Definition happyClient : rsc.Client nat :=
  fixedClient (Ok (Some sampleResource)) (Ok (Some sampleResource))
    None None None.

(** The world a callback starts in. *)
Definition start {S} (d : schema.ResourceData) (s : S) : World S :=
  mkWorld d s [].

(** An error handler that returns the error it is given. *)
Definition passError : HandleError := fun d err => (d, Some err).

(** A client whose [Get] reports that the resource is gone. *)
Definition goneClient : rsc.Client nat :=
  fixedClient (Ok (Some sampleResource)) (Err ErrNotFound) None None None.

(** A client that creates, then refuses both the lock script and the
    delete. *)
Definition refusingClient : rsc.Client nat :=
  fixedClient (Ok (Some sampleResource)) (Ok (Some sampleResource)) None
    (Some (ErrorString "deployment is locked"))
    (Some (ErrorString "lock refused")).

(** The data of an existing deployment, and of a new one that asks for the
    lock. *)
Definition existingDeployment : schema.ResourceData :=
  deploymentData "rs_cm:/api/deployments/42"
    [("name", VString "web"); ("locked", VBool true)].

Definition newLockedDeployment : schema.ResourceData :=
  deploymentData "" [("name", VString "web"); ("locked", VBool true)].

(** [d.Set] over all the fields of a resource, in the order visited. *)
Fixpoint setFields (fields : list (string * Value))
    (d : schema.ResourceData) : schema.ResourceData :=
  match fields with
  | [] => d
  | (k, v) :: rest => setFields rest (schema.Set_ k v d)
  end.

(** Whether a recorded call came back without an error. *)
Definition succeeded (ev : rsc.Call * option error) : bool :=
  match snd ev with
  | None => true
  | Some _ => false
  end.

Definition isRun (ev : rsc.Call * option error) : bool :=
  match fst ev with
  | rsc.CallRun _ _ => true
  | _ => false
  end.

(** The three optional attributes that [deploymentFields] may send. *)
Definition optionalKeys : list string :=
  ["description"; "resource_group_href"; "server_tag_scope"].

(** The lock flag as the create callback reads it: whether "locked" is set
    to a value other than the zero value. *)
Definition lockFlag (d : schema.ResourceData) : bool :=
  snd (schema.GetOk d "locked").

(** More sample clients: one whose [Create] fails, one whose [Get]
    answers a nil resource without an error, one whose [Update] fails. *)
Definition quotaClient : rsc.Client nat :=
  fixedClient (Err (ErrorString "quota exceeded")) (Ok (Some sampleResource))
    None None None.

Definition nilClient : rsc.Client nat :=
  fixedClient (Ok (Some sampleResource)) (Ok None) None None None.

Definition staleClient : rsc.Client nat :=
  fixedClient (Ok (Some sampleResource)) (Ok (Some sampleResource))
    (Some (ErrorString "stale")) None None.

(** A new deployment that does not ask for the lock, and resource data that
    asks for it while carrying the identifier of another deployment. *)
Definition plainDeployment : schema.ResourceData :=
  deploymentData ""
    [("name", VString "web"); ("description", VString "front end")].

Definition otherLocator : rsc.Locator :=
  rsc.mkLocator "rs_cm" "/api/deployments/7".

Definition carriedDeployment : schema.ResourceData :=
  deploymentData "rs_cm:/api/deployments/7"
    [("name", VString "web"); ("locked", VBool true)].

(** A resource whose href holds the separator. *)
Definition colonResource : rsc.Resource :=
  rsc.mkResource (rsc.mkLocator "rs_cm" "/api/clouds/1:2") [].

Definition colonClient : rsc.Client nat :=
  fixedClient (Ok (Some colonResource)) (Ok (Some colonResource))
    None None None.

(** The remote calls a callback kind may make. *)
Definition isCreate (ev : rsc.Call * option error) : bool :=
  match fst ev with
  | rsc.CallCreate _ _ _ => true
  | _ => false
  end.

Definition isDelete (ev : rsc.Call * option error) : bool :=
  match fst ev with
  | rsc.CallDelete _ => true
  | _ => false
  end.

(** * Properties *)

(** ** Splitting on one byte *)

Lemma strings_Split_nonempty sep s : strings_Split sep s <> [].
Proof.
  destruct s as [|c s]; simpl; [discriminate|].
  destruct (Ascii.eqb c sep); [discriminate|].
  destruct (strings_Split sep s); discriminate.
Qed.

Lemma strings_Split_length sep s :
  List.length (strings_Split sep s) = S (strings_Count sep s).
Proof.
  induction s as [|c s IH]; simpl; [reflexivity|].
  destruct (Ascii.eqb c sep); simpl.
  - now rewrite IH.
  - destruct (strings_Split sep s) as [|p ps] eqn:E; simpl in *.
    + discriminate IH.
    + exact IH.
Qed.

Lemma strings_Split_no_sep sep s :
  strings_Count sep s = 0 -> strings_Split sep s = [s].
Proof.
  induction s as [|c s IH]; simpl; [reflexivity|].
  destruct (Ascii.eqb c sep); simpl; [discriminate|].
  intros H. now rewrite (IH H).
Qed.

Lemma strings_Split_app sep a b :
  strings_Count sep a = 0 ->
  strings_Split sep (a ++ String sep b) = a :: strings_Split sep b.
Proof.
  induction a as [|c a IH]; simpl.
  - intros _. now rewrite Ascii.eqb_refl.
  - destruct (Ascii.eqb c sep); simpl; [discriminate|].
    intros H. now rewrite (IH H).
Qed.

Lemma strings_Count_app sep a b :
  strings_Count sep (a ++ b) = strings_Count sep a + strings_Count sep b.
Proof.
  induction a as [|c a IH]; simpl; [reflexivity|].
  rewrite IH. lia.
Qed.

Example strings_Split_locator :
  strings_Split ":"%char "rs_cm:/api/deployments/42"
  = ["rs_cm"; "/api/deployments/42"].
Proof. reflexivity. Qed.

Example strings_Split_empty : strings_Split ":"%char "" = [""].
Proof. reflexivity. Qed.

Example strings_Split_three : strings_Split ":"%char "a:b:c" = ["a"; "b"; "c"].
Proof. reflexivity. Qed.

Example strings_Split_edges : strings_Split ":"%char ":" = [""; ""].
Proof. reflexivity. Qed.

(** A string counts no separator exactly when it cannot be cut at one. *)
Lemma strings_Count_zero sep s :
  strings_Count sep s = 0 <-> forall a b, s <> a ++ String sep b.
Proof.
  split.
  - intros H a b ->. rewrite strings_Count_app in H. simpl in H.
    rewrite Ascii.eqb_refl in H. lia.
  - induction s as [|c s IH]; simpl; [reflexivity|].
    intros H. destruct (Ascii.eqb_spec c sep) as [->|Hne]; simpl.
    + exfalso. apply (H EmptyString s). reflexivity.
    + apply IH. intros a b ->. apply (H (String c a) b). reflexivity.
Qed.

(** The parts, joined again by the separator, are the string. *)
Lemma strings_Split_two sep s ns href :
  strings_Split sep s = [ns; href] ->
  s = ns ++ String sep href /\ strings_Count sep ns = 0
  /\ strings_Count sep href = 0.
Proof.
  revert ns. induction s as [|c s IH]; simpl; intros ns; [discriminate|].
  destruct (Ascii.eqb_spec c sep) as [->|Hne].
  - intros H. injection H as <- H.
    assert (Hc : strings_Count sep s = 0).
    { pose proof (strings_Split_length sep s) as L. rewrite H in L.
      simpl in L. lia. }
    rewrite (strings_Split_no_sep _ _ Hc) in H. injection H as ->.
    repeat split; auto.
  - destruct (strings_Split sep s) as [|p ps] eqn:E; [discriminate|].
    intros H. injection H as <- ->.
    destruct (IH p eq_refl) as (-> & Hp & Hh).
    repeat split; auto. simpl.
    destruct (Ascii.eqb_spec c sep); [contradiction|]. exact Hp.
Qed.

(** ** The locator *)

Lemma locator_unfold (d : schema.ResourceData) :
  locator d =
  match strings_Split ":"%char (schema.Id d) with
  | [ns; href] => Ok (rsc.mkLocator ns href)
  | _ => Err (ErrInvalidResourceID (schema.Id d))
  end.
Proof.
  unfold locator.
  destruct (strings_Split ":"%char (schema.Id d)) as [|a [|b [|c l]]];
    reflexivity.
Qed.

Lemma locator_Ok_iff (d : schema.ResourceData) (loc : rsc.Locator) :
  locator d = Ok loc <->
  strings_Split ":"%char (schema.Id d) = [rsc.Namespace loc; rsc.Href loc].
Proof.
  rewrite locator_unfold. destruct loc as [ns href]. simpl.
  destruct (strings_Split ":"%char (schema.Id d)) as [|a [|b [|c l]]];
    split; intros H; try discriminate H;
    injection H as <- <-; reflexivity.
Qed.

Lemma locator_Err_iff (d : schema.ResourceData) :
  strings_Count ":"%char (schema.Id d) <> 1 <->
  locator d = Err (ErrInvalidResourceID (schema.Id d)).
Proof.
  rewrite locator_unfold.
  pose proof (strings_Split_length ":"%char (schema.Id d)) as L.
  destruct (strings_Split ":"%char (schema.Id d)) as [|a [|b [|c l]]];
    simpl in L; split; intros H; try reflexivity; try discriminate H; lia.
Qed.

(** C3: [locator] succeeds exactly when splitting the identifier on ":"
    yields exactly two parts, and then returns the locator whose namespace
    is the first part and whose href is the second; in every other shape
    (no separator, or more than one) it returns the invalid-identifier
    error and no locator.  Two parts means exactly one separator. *)
Theorem locator_two_parts (d : schema.ResourceData) :
  (forall loc,
      locator d = Ok loc <->
      strings_Split ":"%char (schema.Id d) = [rsc.Namespace loc; rsc.Href loc])
  /\ (List.length (strings_Split ":"%char (schema.Id d)) <> 2 <->
      locator d = Err (ErrInvalidResourceID (schema.Id d)))
  /\ (List.length (strings_Split ":"%char (schema.Id d)) = 2 <->
      strings_Count ":"%char (schema.Id d) = 1).
Proof.
  split; [intros loc; apply locator_Ok_iff|].
  rewrite <- locator_Err_iff, strings_Split_length. lia.
Qed.

(** ** The schema *)

(** C7: the validation callback of [server_tag_scope] returns no warnings
    and no errors exactly when the value is the string "", "account" or
    "deployment", and no warnings and exactly one error for every other
    value. *)
Theorem server_tag_scope_validation (v : Value) (k : string) :
  deploymentSchema !! "server_tag_scope"
  = Some (schema.mkSchema
            "routing scope for tags for servers in the deployment"
            schema.TypeString false true "deployment" true
            (Some server_tag_scope_ValidateFunc))
  /\ (server_tag_scope_ValidateFunc v k = ([], []) <->
      v = VString "" \/ v = VString "account" \/ v = VString "deployment")
  /\ (~ (v = VString "" \/ v = VString "account" \/ v = VString "deployment")
      -> exists e, server_tag_scope_ValidateFunc v k = ([], [e])).
Proof.
  split; [reflexivity|].
  unfold server_tag_scope_ValidateFunc.
  destruct (bool_decide (v = VString "")) eqn:E1;
    destruct (bool_decide (v = VString "account")) eqn:E2;
    destruct (bool_decide (v = VString "deployment")) eqn:E3; simpl;
    try apply bool_decide_eq_true in E1;
    try apply bool_decide_eq_true in E2;
    try apply bool_decide_eq_true in E3;
    try (split; [split; auto | intros H; exfalso; apply H; auto]; fail).
  apply bool_decide_eq_false in E1, E2, E3.
  split.
  - split; [discriminate | intros [H|[H|H]]; contradiction].
  - intros _. eexists. reflexivity.
Qed.

(** ** The fields sent to the client *)

Lemma deploymentFields_lookup (d : schema.ResourceData) (k : string) :
  deploymentFields d !! k =
  if decide (k = "name") then Some (schema.Get d "name")
  else if decide (In k optionalKeys) then
         (if snd (schema.GetOk d k) then Some (schema.Get d k) else None)
       else None.
Proof.
  unfold deploymentFields, optionalKeys.
  assert (G : forall key, fst (schema.GetOk d key) = schema.Get d key)
    by reflexivity.
  pose proof (G "description") as G1.
  pose proof (G "resource_group_href") as G2.
  pose proof (G "server_tag_scope") as G3.
  destruct (schema.GetOk d "description") as [v1 b1] eqn:E1.
  destruct (schema.GetOk d "resource_group_href") as [v2 b2] eqn:E2.
  destruct (schema.GetOk d "server_tag_scope") as [v3 b3] eqn:E3.
  simpl in G1, G2, G3. subst v1 v2 v3.
  destruct (decide (k = "name")) as [->|Hn].
  { destruct b1, b2, b3; reflexivity. }
  destruct (decide (k = "description")) as [->|H1].
  { rewrite E1. destruct b1, b2, b3; reflexivity. }
  destruct (decide (k = "resource_group_href")) as [->|H2].
  { rewrite E2. destruct b1, b2, b3; reflexivity. }
  destruct (decide (k = "server_tag_scope")) as [->|H3].
  { rewrite E3. destruct b1, b2, b3; reflexivity. }
  rewrite decide_False by (simpl; intuition congruence).
  destruct b1, b2, b3;
    repeat (rewrite lookup_insert_ne by congruence);
    apply lookup_singleton_ne; congruence.
Qed.

Lemma deploymentFields_optional (d : schema.ResourceData) (k : string) :
  In k optionalKeys ->
  deploymentFields d !! k =
  if snd (schema.GetOk d k) then Some (schema.Get d k) else None.
Proof.
  intros Hk. rewrite deploymentFields_lookup.
  rewrite decide_False by (intros ->; simpl in Hk; intuition discriminate).
  rewrite decide_True by assumption. reflexivity.
Qed.

(** On deployment data, [GetOk] of a string attribute answers true exactly
    when a string other than "" is stored under the key. *)
Lemma GetOk_string_attribute (d : schema.ResourceData) (k : string) :
  schema.sch d = deploymentSchema ->
  k = "name" \/ In k optionalKeys ->
  snd (schema.GetOk d k) = true <->
  exists s, schema.raw d !! k = Some (VString s) /\ s <> "".
Proof.
  intros Hsch Hk. unfold schema.GetOk, schema.stored. rewrite Hsch. simpl.
  assert (Ht : exists sc, deploymentSchema !! k = Some sc
                          /\ schema.Type_ sc = schema.TypeString).
  { destruct Hk as [->|[<-|[<-|[<-|[]]]]]; eexists; split; reflexivity. }
  destruct Ht as (sc & -> & Ht). rewrite Ht.
  destruct (schema.raw d !! k) as [[| b | s]|]; simpl.
  - split; [discriminate | intros (s & H & _); discriminate H].
  - split; [discriminate | intros (s & H & _); discriminate H].
  - rewrite negb_true_iff, bool_decide_eq_false. split.
    + intros H. exists s. split; [reflexivity | congruence].
    + intros (s' & H & Hne). injection H as <-. congruence.
  - split; [discriminate | intros (s & H & _); discriminate H].
Qed.

(** C10: the field map of [deploymentFields] always has the key "name";
    it has each of "description", "resource_group_href" and
    "server_tag_scope" exactly when that attribute is set to a value other
    than the zero value (a stored string other than ""); it never has
    "locked", nor any key besides those four. *)
Theorem deploymentFields_keys (d : schema.ResourceData) :
  schema.sch d = deploymentSchema ->
  deploymentFields d !! "name" = Some (schema.Get d "name")
  /\ (forall k, In k optionalKeys ->
        (is_Some (deploymentFields d !! k) <-> snd (schema.GetOk d k) = true)
        /\ (is_Some (deploymentFields d !! k) <->
            exists s, schema.raw d !! k = Some (VString s) /\ s <> "")
        /\ (forall v, deploymentFields d !! k = Some v -> v = schema.Get d k))
  /\ deploymentFields d !! "locked" = None
  /\ (forall k, is_Some (deploymentFields d !! k) ->
        k = "name" \/ In k optionalKeys).
Proof.
  intros Hsch. split; [|split; [|split]].
  - rewrite deploymentFields_lookup. reflexivity.
  - intros k Hk.
    rewrite <- (GetOk_string_attribute d k Hsch) by (right; assumption).
    rewrite (deploymentFields_optional d k Hk).
    destruct (snd (schema.GetOk d k)).
    + repeat split; eauto; congruence.
    + repeat split; try discriminate; intros [? ?]; discriminate.
  - rewrite deploymentFields_lookup. reflexivity.
  - intros k. rewrite deploymentFields_lookup.
    destruct (decide (k = "name")); [auto|].
    destruct (decide (In k optionalKeys)); [auto|].
    intros [? ?]; discriminate.
Qed.

Lemma deploymentFields_keys_witness :
  deploymentFields existingDeployment !! "name"
  = Some (schema.Get existingDeployment "name")
  /\ deploymentFields existingDeployment !! "locked" = None.
Proof.
  pose proof (deploymentFields_keys existingDeployment eq_refl)
    as (Hname & _ & Hlocked & _).
  split; assumption.
Defined.

(** ** Running the callbacks *)

Lemma setFields_id fields d : schema.id (setFields fields d) = schema.id d.
Proof.
  revert d. induction fields as [|[k v] l IH]; intros d; simpl;
    [|rewrite IH]; reflexivity.
Qed.

Lemma setFields_sch fields d : schema.sch (setFields fields d) = schema.sch d.
Proof.
  revert d. induction fields as [|[k v] l IH]; intros d; simpl;
    [|rewrite IH]; reflexivity.
Qed.

Lemma locator_id d d' : schema.id d' = schema.id d -> locator d' = locator d.
Proof. unfold locator, schema.Id. now intros ->. Qed.

Lemma forRange_Set {S} fields (w : World S) :
  forRange fields (fun k v => modifyData (schema.Set_ k v)) w
  = (Returns tt, mkWorld (setFields fields (data w)) (remote w) (calls w)).
Proof.
  revert w. induction fields as [|[k v] l IH]; intros [d s c]; simpl.
  - reflexivity.
  - unfold mbind, M_bind, bind, modifyData. simpl. now rewrite IH.
Qed.

Ltac run_callback :=
  unfold mbind, M_bind, bind, ret, panic, getData, callCreate, callGet,
    callUpdate, callDelete, callRun, callHandleError, deref, handleRSCError;
  simpl.

(** What one run of [resourceRead] does. *)
Lemma resourceRead_run {S} (client : rsc.Client S) (w : World S) :
  resourceRead client w =
  match locator (data w) with
  | Err err => (Returns (Some err), w)
  | Ok loc =>
      let '(r, s') := rsc.Get client loc (remote w) in
      let log := (calls w ++ [(rsc.CallGet loc, errOf r)])%list in
      match r with
      | Err err =>
          if bool_decide (err = ErrNotFound)
          then (Returns None, mkWorld (schema.SetId "" (data w)) s' log)
          else (Returns (Some err), mkWorld (data w) s' log)
      | Ok None => (Panics, mkWorld (data w) s' log)
      | Ok (Some res) =>
          (Returns None,
           mkWorld (setFields (rsc.ResFields res) (data w)) s' log)
      end
  end.
Proof.
  unfold resourceRead. run_callback.
  destruct (locator (data w)) as [loc|err]; [|destruct w; reflexivity].
  destruct (rsc.Get client loc (remote w)) as [[[res|]|err] s']; simpl;
    try reflexivity.
  - rewrite forRange_Set. reflexivity.
  - destruct (bool_decide (err = ErrNotFound)); reflexivity.
Qed.

(** What one run of [resourceDelete] does. *)
Lemma resourceDelete_run {S} (client : rsc.Client S) (w : World S) :
  resourceDelete client w =
  match locator (data w) with
  | Err err => (Returns (Some err), w)
  | Ok loc =>
      let '(e, s') := rsc.Delete client loc (remote w) in
      (Returns e, mkWorld (data w) s' (calls w ++ [(rsc.CallDelete loc, e)]))
  end.
Proof.
  unfold resourceDelete. run_callback.
  destruct (locator (data w)) as [loc|err]; [|destruct w]; reflexivity.
Qed.

(** What one run of [resourceExists] does. *)
Lemma resourceExists_run {S} (client : rsc.Client S) (w : World S) :
  resourceExists client w =
  match locator (data w) with
  | Err err => (Returns (false, Some err), w)
  | Ok loc =>
      let '(r, s') := rsc.Get client loc (remote w) in
      let w' := mkWorld (data w) s' (calls w ++ [(rsc.CallGet loc, errOf r)]) in
      match r with
      | Err err => (Returns (false, Some err), w')
      | Ok res => (Returns (bool_decide (res <> None), None), w')
      end
  end.
Proof.
  unfold resourceExists. run_callback.
  destruct (locator (data w)) as [loc|err]; [|destruct w; reflexivity].
  destruct (rsc.Get client loc (remote w)) as [[res|err] s']; reflexivity.
Qed.

(** On deployment data "locked" reads as a boolean, true exactly when the
    lock flag is set. *)
Lemma Get_locked (d : schema.ResourceData) :
  schema.sch d = deploymentSchema ->
  schema.GetOk d "locked" = (VBool (lockFlag d), lockFlag d).
Proof.
  intros Hsch. unfold lockFlag, schema.GetOk, schema.Get, schema.stored.
  rewrite Hsch.
  change (deploymentSchema !! "locked")
    with (Some (schema.mkSchema "whether deployment is locked"
                  schema.TypeBool false true "" false None)).
  simpl. destruct (schema.raw d !! "locked") as [[|[|]|s]|]; reflexivity.
Qed.

(** The lock flag is set exactly when the boolean true is stored under
    "locked". *)
Lemma lockFlag_raw (d : schema.ResourceData) :
  schema.sch d = deploymentSchema ->
  lockFlag d = true <-> schema.raw d !! "locked" = Some (VBool true).
Proof.
  intros Hsch. unfold lockFlag, schema.GetOk, schema.stored. rewrite Hsch.
  change (deploymentSchema !! "locked")
    with (Some (schema.mkSchema "whether deployment is locked"
                  schema.TypeBool false true "" false None)).
  simpl. destruct (schema.raw d !! "locked") as [[|[|]|s]|]; simpl;
    split; intros H; try reflexivity; discriminate H.
Qed.

(** What one run of [updateLock] does on deployment data. *)
Lemma updateLock_run {S} (client : rsc.Client S) (w : World S) :
  schema.sch (data w) = deploymentSchema ->
  updateLock client w =
  match locator (data w) with
  | Err err => (Returns (Some err), w)
  | Ok loc =>
      let script :=
        if lockFlag (data w) then "@res.lock()" else "@res.unlock()" in
      let '(e, s') := rsc.Run client loc script (remote w) in
      (Returns e,
       mkWorld (data w) s' (calls w ++ [(rsc.CallRun loc script, e)]))
  end.
Proof.
  intros Hsch. unfold updateLock. run_callback.
  destruct (locator (data w)) as [loc|err]; [|destruct w; reflexivity].
  pose proof (f_equal fst (Get_locked _ Hsch)) as G. simpl in G.
  rewrite G. simpl.
  destruct (lockFlag (data w)); reflexivity.
Qed.

(** [updateLock] never panics on deployment data, leaves the resource data
    as it is, and makes no call when the identifier does not parse, one
    [Run] call otherwise, whose error it returns. *)
Lemma updateLock_effect {S} (client : rsc.Client S) (w : World S) :
  schema.sch (data w) = deploymentSchema ->
  exists e w',
    updateLock client w = (Returns e, w') /\ data w' = data w
    /\ ((locator (data w) = Err (ErrInvalidResourceID (schema.Id (data w)))
         /\ e = Some (ErrInvalidResourceID (schema.Id (data w))) /\ w' = w)
        \/ (exists loc script,
              locator (data w) = Ok loc
              /\ calls w' = (calls w ++ [(rsc.CallRun loc script, e)])%list)).
Proof.
  intros Hsch. rewrite (updateLock_run client w Hsch).
  destruct (locator (data w)) as [loc|err] eqn:L.
  - simpl. destruct (rsc.Run client loc _ (remote w)) as [e s'] eqn:R.
    eexists _, _. split; [reflexivity|]. split; [reflexivity|].
    right. eexists _, _. split; reflexivity.
  - assert (err = ErrInvalidResourceID (schema.Id (data w))) as ->.
    { rewrite locator_unfold in L.
      destruct (strings_Split ":"%char (schema.Id (data w)))
        as [|a [|b [|c l]]]; congruence. }
    eexists _, _. split; [reflexivity|]. split; [reflexivity|].
    left. auto.
Qed.

(** What one run of [resourceDeploymentCreate] does on deployment data. *)
Lemma resourceDeploymentCreate_run {S} (client : rsc.Client S) (w : World S) :
  schema.sch (data w) = deploymentSchema ->
  resourceDeploymentCreate client w =
  let d := data w in
  let '(r, s1) :=
    rsc.Create client "rs_cm" "deployment" (deploymentFields d) (remote w) in
  let log :=
    (calls w
     ++ [(rsc.CallCreate "rs_cm" "deployment" (deploymentFields d), errOf r)])
    %list in
  match r with
  | Err err => (Returns (Some err), mkWorld d s1 log)
  | Ok None => (Panics, mkWorld d s1 log)
  | Ok (Some res) =>
      let d1 := setFields (rsc.ResFields res) d in
      let ident :=
        rsc.Namespace (rsc.Loc res) ++ ":" ++ rsc.Href (rsc.Loc res) in
      if lockFlag d then
        match updateLock client (mkWorld d1 s1 log) with
        | (Returns (Some err), w2) =>
            let '(e, s3) := rsc.Delete client (rsc.Loc res) (remote w2) in
            (Returns (Some err),
             mkWorld (data w2) s3
               (calls w2 ++ [(rsc.CallDelete (rsc.Loc res), e)]))
        | (Returns None, w2) =>
            (Returns None,
             mkWorld
               (schema.SetId ident
                  (schema.Set_ "locked" (VBool true) (data w2)))
               (remote w2) (calls w2))
        | (Panics, w2) => (Panics, w2)
        end
      else (Returns None, mkWorld (schema.SetId ident d1) s1 log)
  end.
Proof.
  intros Hsch.
  unfold resourceDeploymentCreate, mbind, M_bind, bind, getData.
  cbv beta iota. rewrite (Get_locked _ Hsch).
  destruct (lockFlag (data w)); run_callback;
    destruct (rsc.Create client "rs_cm" "deployment"
                (deploymentFields (data w)) (remote w)) as [[[res|]|err] s1];
    simpl; try reflexivity.
  - rewrite forRange_Set. simpl.
    destruct (updateLock client _) as [[[err|]|] w2]; simpl; try reflexivity.
    destruct (rsc.Delete client (rsc.Loc res) (remote w2)); reflexivity.
  - rewrite forRange_Set. reflexivity.
Qed.

(** What one run of [resourceDeploymentUpdate] does. *)
Lemma resourceDeploymentUpdate_run {S} (handleError : HandleError)
    (client : rsc.Client S) (w : World S) :
  resourceDeploymentUpdate handleError client w =
  let w0 := mkWorld (schema.Partial true (data w)) (remote w) (calls w) in
  match locator (data w) with
  | Err err => (Returns (Some err), w0)
  | Ok loc =>
      match updateLock client w0 with
      | (Returns (Some err), w1) => callHandleError handleError err w1
      | (Returns None, w1) =>
          let d2 := schema.SetPartial "locked" (data w1) in
          let '(e, s2) :=
            rsc.Update client loc (deploymentFields d2) (remote w1) in
          let w2 :=
            mkWorld d2 s2
              (calls w1 ++ [(rsc.CallUpdate loc (deploymentFields d2), e)]) in
          match e with
          | Some err => callHandleError handleError err w2
          | None =>
              (Returns None,
               mkWorld (schema.Partial false d2) s2 (calls w2))
          end
      | (Panics, w1) => (Panics, w1)
      end
  end.
Proof.
  unfold resourceDeploymentUpdate. run_callback. unfold modifyData. simpl.
  change (locator (schema.Partial true (data w))) with (locator (data w)).
  destruct (locator (data w)) as [loc|err]; [|reflexivity].
  destruct (updateLock client _) as [[[err|]|] w1]; simpl; try reflexivity.
  destruct (rsc.Update client loc _ (remote w1)) as [[err|] s2];
    reflexivity.
Qed.

(** ** Read, exists, delete *)

(** C4: when the client's [Get] returns the not-found sentinel,
    [resourceRead] sets the identifier to the empty string and returns nil;
    for every other [Get] error it returns that error unchanged and leaves
    the resource data, the identifier included, as it was. *)
Theorem read_get_error {S} (client : rsc.Client S) (w : World S)
    (loc : rsc.Locator) (e : error) (s' : S) :
  locator (data w) = Ok loc ->
  rsc.Get client loc (remote w) = (Err e, s') ->
  let log := (calls w ++ [(rsc.CallGet loc, Some e)])%list in
  (e = ErrNotFound ->
   resourceRead client w
   = (Returns None, mkWorld (schema.SetId "" (data w)) s' log)
   /\ schema.Id (data (snd (resourceRead client w))) = "")
  /\ (e <> ErrNotFound ->
      resourceRead client w = (Returns (Some e), mkWorld (data w) s' log)
      /\ schema.Id (data (snd (resourceRead client w))) = schema.Id (data w)).
Proof.
  intros L G. rewrite resourceRead_run, L, G. simpl. split; intros He.
  - rewrite bool_decide_eq_true_2 by assumption. split; reflexivity.
  - rewrite bool_decide_eq_false_2 by assumption. split; reflexivity.
Qed.

Lemma read_get_error_witness :
  resourceRead goneClient (start existingDeployment 0)
  = (Returns None,
     mkWorld (schema.SetId "" existingDeployment) 1
       [(rsc.CallGet sampleLocator, Some ErrNotFound)]).
Proof.
  refine (proj1 (proj1 (read_get_error goneClient (start existingDeployment 0)
                          sampleLocator ErrNotFound 1 _ _) _));
    reflexivity.
Defined.

(** C9: when the client's [Get] returns the not-found sentinel during an
    existence check, [resourceExists] returns false together with that
    error and leaves the identifier alone, whereas [resourceRead] on the
    same world swallows the error and clears the identifier. *)
Theorem exists_not_found {S} (client : rsc.Client S) (w : World S)
    (loc : rsc.Locator) (s' : S) :
  locator (data w) = Ok loc ->
  rsc.Get client loc (remote w) = (Err ErrNotFound, s') ->
  let log := (calls w ++ [(rsc.CallGet loc, Some ErrNotFound)])%list in
  resourceExists client w
  = (Returns (false, Some ErrNotFound), mkWorld (data w) s' log)
  /\ resourceRead client w
     = (Returns None, mkWorld (schema.SetId "" (data w)) s' log).
Proof.
  intros L G. rewrite resourceExists_run, resourceRead_run, L, G.
  split; reflexivity.
Qed.

Lemma exists_not_found_witness :
  resourceExists goneClient (start existingDeployment 0)
  = (Returns (false, Some ErrNotFound),
     mkWorld existingDeployment 1
       [(rsc.CallGet sampleLocator, Some ErrNotFound)]).
Proof.
  refine (proj1 (exists_not_found goneClient (start existingDeployment 0)
                   sampleLocator 1 _ _));
    reflexivity.
Defined.

(** C8: [resourceDelete], the delete callback of the deployment resource,
    does a locator parse and one remote [Delete] call and returns the
    client's result unchanged, a rejection included; it leaves the resource
    data, fields and identifier, as it was whether the delete succeeds or
    fails. *)
Theorem delete_passes_through {S} (handleError : HandleError)
    (client : rsc.Client S) (w : World S) :
  Delete (resourceDeployment handleError) client w = resourceDelete client w
  /\ data (snd (resourceDelete client w)) = data w
  /\ match locator (data w) with
     | Err err => resourceDelete client w = (Returns (Some err), w)
     | Ok loc =>
         let r := rsc.Delete client loc (remote w) in
         resourceDelete client w
         = (Returns (fst r),
            mkWorld (data w) (snd r)
              (calls w ++ [(rsc.CallDelete loc, fst r)]))
     end.
Proof.
  split; [reflexivity|]. rewrite resourceDelete_run.
  destruct (locator (data w)) as [loc|err]; simpl.
  - destruct (rsc.Delete client loc (remote w)) as [e s']. split; reflexivity.
  - split; reflexivity.
Qed.

(** ** Remote calls per callback *)

(** The update callback run on an existing deployment makes two remote
    calls, the unlock script and then the field update: it does not make
    exactly one. *)
Lemma update_single_call_counterexample :
  let w := snd (resourceDeploymentUpdate passError happyClient
                  (start (deploymentData "rs_cm:/api/deployments/42"
                            [("name", VString "web")]) 0)) in
  calls w
  = [(rsc.CallRun sampleLocator "@res.unlock()", None);
     (rsc.CallUpdate sampleLocator {[ "name" := VString "web" ]}, None)]
  /\ List.length (calls w) <> 1.
Proof. split; [vm_compute; reflexivity | vm_compute; discriminate]. Qed.

(** C5, amended: read and delete each parse the locator and then make a
    single remote call ([Get], [Delete]), and none when the parse fails.
    Update parses the locator and then runs the lock or unlock script; when
    the script fails that is its only call, and when it succeeds update goes
    on to make one [Update] call: two remote calls in all.  Create is
    outside this pattern: it makes the remote create first and then at most
    two more calls, each a script run or a delete. *)
Theorem lifecycle_remote_calls {S} (handleError : HandleError)
    (client : rsc.Client S) (w : World S) :
  schema.sch (data w) = deploymentSchema ->
  let read := snd (resourceRead client w) in
  let del := snd (resourceDelete client w) in
  let upd := snd (resourceDeploymentUpdate handleError client w) in
  let cre := snd (resourceDeploymentCreate client w) in
  match locator (data w) with
  | Err _ => calls read = calls w /\ calls del = calls w /\ calls upd = calls w
  | Ok loc =>
      (exists r, calls read = (calls w ++ [(rsc.CallGet loc, r)])%list)
      /\ (exists r, calls del = (calls w ++ [(rsc.CallDelete loc, r)])%list)
      /\ (exists script r,
            script = (if lockFlag (data w) then "@res.lock()"
                      else "@res.unlock()")
            /\ fst (rsc.Run client loc script (remote w)) = r
            /\ match r with
               | Some _ =>
                   calls upd = (calls w ++ [(rsc.CallRun loc script, r)])%list
               | None =>
                   exists fields r',
                   calls upd
                   = (calls w ++ [(rsc.CallRun loc script, None);
                                  (rsc.CallUpdate loc fields, r')])%list
               end)
  end
  /\ (exists r rest,
        calls cre
        = (calls w
           ++ (rsc.CallCreate "rs_cm" "deployment" (deploymentFields (data w)),
               r) :: rest)%list
        /\ List.length rest <= 2
        /\ forallb (fun ev => isRun ev || isDelete ev) rest = true).
Proof.
  intros Hsch. simpl. split.
  - rewrite resourceRead_run, resourceDelete_run, resourceDeploymentUpdate_run.
    cbv zeta. rewrite (updateLock_run client (mkWorld _ _ _)) by exact Hsch.
    simpl.
    change (locator (schema.Partial true (data w))) with (locator (data w)).
    change (lockFlag (schema.Partial true (data w))) with (lockFlag (data w)).
    destruct (locator (data w)) as [loc|err]; simpl; [|auto].
    split; [|split].
    + destruct (rsc.Get client loc (remote w)) as [[[res|]|e] s']; simpl;
        try (eexists; reflexivity).
      destruct (bool_decide (e = ErrNotFound)); eexists; reflexivity.
    + destruct (rsc.Delete client loc (remote w)) as [e s'].
      eexists; reflexivity.
    + exists (if lockFlag (data w) then "@res.lock()" else "@res.unlock()").
      exists (fst (rsc.Run client loc
                     (if lockFlag (data w) then "@res.lock()"
                      else "@res.unlock()") (remote w))).
      split; [reflexivity|].
      destruct (rsc.Run client loc _ (remote w)) as [[e|] s1] eqn:R; simpl.
      * split; [reflexivity|]. unfold callHandleError. simpl.
        destruct (handleError _ e); reflexivity.
      * split; [reflexivity|].
        destruct (rsc.Update client loc _ s1) as [[e|] s2]; simpl.
        -- unfold callHandleError. simpl.
           destruct (handleError _ e). simpl. rewrite <- app_assoc.
           eexists _, _. reflexivity.
        -- rewrite <- app_assoc. eexists _, _. reflexivity.
  - rewrite (resourceDeploymentCreate_run client w Hsch). simpl.
    destruct (rsc.Create client "rs_cm" "deployment"
                (deploymentFields (data w)) (remote w))
      as [[[res|]|err] s1]; simpl.
    2,3: eexists _, []; split; [reflexivity|]; simpl; split; [lia|reflexivity].
    destruct (lockFlag (data w));
      [|eexists _, []; split; [reflexivity|]; simpl;
        split; [lia|reflexivity]].
    destruct (updateLock_effect client
                (mkWorld (setFields (rsc.ResFields res) (data w)) s1
                   (calls w ++ [(rsc.CallCreate "rs_cm" "deployment"
                                   (deploymentFields (data w)), None)])))
      as (e & w2 & U & D & T);
      [simpl; rewrite setFields_sch; exact Hsch|].
    rewrite U. simpl in T.
    destruct T as [(_ & -> & ->)|(loc & script & _ & T)].
    + simpl. destruct (rsc.Delete client (rsc.Loc res) s1) as [de s3]; simpl.
      rewrite <- app_assoc. eexists _, _. split; [reflexivity|].
      simpl. split; [lia|reflexivity].
    + destruct e as [e|]; simpl.
      * destruct (rsc.Delete client (rsc.Loc res) (remote w2)) as [de s3].
        simpl. rewrite T, <- !app_assoc. eexists _, _.
        split; [reflexivity|]. simpl. split; [lia|reflexivity].
      * rewrite T, <- app_assoc. eexists _, _. split; [reflexivity|].
        simpl. split; [lia|reflexivity].
Qed.

Lemma lifecycle_remote_calls_witness :
  exists script r,
    script = "@res.lock()"
    /\ fst (rsc.Run refusingClient sampleLocator script 0) = r
    /\ calls (snd (resourceDeploymentUpdate passError refusingClient
                     (start existingDeployment 0)))
       = [(rsc.CallRun sampleLocator script, r)].
Proof.
  pose proof (proj1 (lifecycle_remote_calls passError refusingClient
                       (start existingDeployment 0) eq_refl)) as H.
  simpl in H. destruct H as (_ & _ & script & r & Hs & Hr & Hc).
  exists script, r. subst script. split; [reflexivity|].
  split; [exact Hr|].
  simpl in Hr. subst r. exact Hc.
Defined.

(** ** Create *)

(** C1: when the lock flag is set and the lock step fails after the remote
    create, [resourceDeploymentCreate] calls [Delete] on the locator of the
    deployment just created, returns the error of the lock step whatever
    that delete answers, and leaves the identifier as it was.  In every run
    that does not return nil the identifier is untouched; in a run that
    returns nil every remote call has succeeded and the identifier is the
    namespace and href of the created deployment joined by ":". *)
Theorem create_lock_failure {S} (client : rsc.Client S)
    (d : schema.ResourceData) (s : S) :
  schema.sch d = deploymentSchema ->
  let fields := deploymentFields d in
  (forall res s1 e w2,
      lockFlag d = true ->
      rsc.Create client "rs_cm" "deployment" fields s = (Ok (Some res), s1) ->
      updateLock client
        (mkWorld (setFields (rsc.ResFields res) d) s1
           [(rsc.CallCreate "rs_cm" "deployment" fields, None)])
      = (Returns (Some e), w2) ->
      let del := rsc.Delete client (rsc.Loc res) (remote w2) in
      resourceDeploymentCreate client (start d s)
      = (Returns (Some e),
         mkWorld (data w2) (snd del)
           (calls w2 ++ [(rsc.CallDelete (rsc.Loc res), fst del)]))
      /\ schema.Id (data w2) = schema.Id d)
  /\ (let out := resourceDeploymentCreate client (start d s) in
      (fst out = Returns None ->
       forallb succeeded (calls (snd out)) = true
       /\ exists res s1,
           rsc.Create client "rs_cm" "deployment" fields s
           = (Ok (Some res), s1)
           /\ schema.Id (data (snd out))
              = rsc.Namespace (rsc.Loc res) ++ ":" ++ rsc.Href (rsc.Loc res))
      /\ (fst out <> Returns None ->
          schema.Id (data (snd out)) = schema.Id d)).
Proof.
  intros Hsch fields. subst fields.
  rewrite (resourceDeploymentCreate_run client (start d s) Hsch). simpl.
  destruct (rsc.Create client "rs_cm" "deployment" (deploymentFields d) s)
    as [[[res|]|err] s1] eqn:C; simpl.
  2,3: split; [intros; discriminate|];
       split; [intros; discriminate | reflexivity].
  assert (Hsch1 : schema.sch (setFields (rsc.ResFields res) d)
                  = deploymentSchema)
    by (rewrite setFields_sch; exact Hsch).
  destruct (updateLock_effect client
              (mkWorld (setFields (rsc.ResFields res) d) s1
                 [(rsc.CallCreate "rs_cm" "deployment" (deploymentFields d),
                   None)]) Hsch1) as (e0 & w2' & U & D & T).
  simpl in D, T. split.
  - intros res' s1' e w2 Hl Hc Hu. injection Hc as <- <-.
    rewrite Hl, Hu. rewrite Hu in U. injection U as -> ->.
    destruct (rsc.Delete client (rsc.Loc res) (remote w2')) as [de s3]; simpl.
    split; [reflexivity|]. unfold schema.Id. rewrite D. apply setFields_id.
  - destruct (lockFlag d); simpl.
    + rewrite U. destruct e0 as [err|]; simpl.
      * destruct (rsc.Delete client (rsc.Loc res) (remote w2')) as [de s3].
        simpl. split; [intros; discriminate|]. intros _.
        unfold schema.Id. rewrite D. apply setFields_id.
      * split; [|intros H; contradiction]. intros _. split.
        -- destruct T as [(_ & T & _)|(loc & script & _ & ->)];
             [discriminate T | reflexivity].
        -- exists res, s1. split; reflexivity.
    + split; [|intros H; contradiction]. intros _. split; [reflexivity|].
      exists res, s1. split; reflexivity.
Qed.

Lemma create_lock_failure_witness :
  resourceDeploymentCreate refusingClient (start existingDeployment 0)
  = (Returns (Some (ErrorString "lock refused")),
     mkWorld (setFields (rsc.ResFields sampleResource) existingDeployment) 3
       [(rsc.CallCreate "rs_cm" "deployment"
           (deploymentFields existingDeployment), None);
        (rsc.CallRun sampleLocator "@res.lock()",
         Some (ErrorString "lock refused"));
        (rsc.CallDelete sampleLocator,
         Some (ErrorString "deployment is locked"))]).
Proof.
  refine (proj1 (proj1 (create_lock_failure refusingClient existingDeployment
                          0 eq_refl)
                   sampleResource 1 (ErrorString "lock refused")
                   (mkWorld
                      (setFields (rsc.ResFields sampleResource)
                         existingDeployment) 2
                      [(rsc.CallCreate "rs_cm" "deployment"
                          (deploymentFields existingDeployment), None);
                       (rsc.CallRun sampleLocator "@res.lock()",
                        Some (ErrorString "lock refused"))]) _ _ _));
    reflexivity.
Defined.

(** A new resource that asks for the lock, on a client whose remote create
    fails: the callback returns that error after the one call and makes no
    delete, so it does not always take the compensating-delete path. *)
Lemma create_locked_new_without_delete_counterexample :
  let out := resourceDeploymentCreate quotaClient
               (start newLockedDeployment 0) in
  lockFlag newLockedDeployment = true
  /\ schema.Id newLockedDeployment = ""
  /\ out
     = (Returns (Some (ErrorString "quota exceeded")),
        mkWorld newLockedDeployment 1
          [(rsc.CallCreate "rs_cm" "deployment"
              (deploymentFields newLockedDeployment),
            Some (ErrorString "quota exceeded"))])
  /\ existsb isDelete (calls (snd out)) = false.
Proof. repeat split; reflexivity. Qed.

(** C2, amended: when the lock flag is set and the identifier is still
    empty (a new resource), the create callback never issues a lock call,
    never returns nil and leaves the identifier empty.  Whenever the remote
    create returns a resource, the locator parse inside the lock helper
    fails, and the callback takes the compensating-delete path and returns
    the invalid-identifier error.  When the remote create itself fails, the
    callback returns that error after this one call, without a delete; when
    it returns a nil resource without an error, the callback panics on the
    nil pointer. *)
Theorem create_locked_new_never_succeeds {S} (client : rsc.Client S)
    (d : schema.ResourceData) (s : S) :
  schema.sch d = deploymentSchema ->
  lockFlag d = true ->
  schema.Id d = "" ->
  let fields := deploymentFields d in
  let created := rsc.Create client "rs_cm" "deployment" fields s in
  let out := resourceDeploymentCreate client (start d s) in
  fst out <> Returns None
  /\ existsb isRun (calls (snd out)) = false
  /\ schema.Id (data (snd out)) = ""
  /\ out
     = match fst created with
       | Ok (Some res) =>
           let del := rsc.Delete client (rsc.Loc res) (snd created) in
           (Returns (Some (ErrInvalidResourceID "")),
            mkWorld (setFields (rsc.ResFields res) d) (snd del)
              [(rsc.CallCreate "rs_cm" "deployment" fields, None);
               (rsc.CallDelete (rsc.Loc res), fst del)])
       | Ok None =>
           (Panics,
            mkWorld d (snd created)
              [(rsc.CallCreate "rs_cm" "deployment" fields, None)])
       | Err e =>
           (Returns (Some e),
            mkWorld d (snd created)
              [(rsc.CallCreate "rs_cm" "deployment" fields, Some e)])
       end.
Proof.
  intros Hsch Hl Hid. simpl.
  rewrite (resourceDeploymentCreate_run client (start d s) Hsch). simpl.
  rewrite Hl.
  destruct (rsc.Create client "rs_cm" "deployment" (deploymentFields d) s)
    as [[[res|]|err] s1] eqn:C; simpl.
  2,3: repeat split; try discriminate; try assumption.
  assert (Hsch1 : schema.sch (setFields (rsc.ResFields res) d)
                  = deploymentSchema)
    by (rewrite setFields_sch; exact Hsch).
  rewrite updateLock_run by exact Hsch1. simpl.
  assert (L : locator (setFields (rsc.ResFields res) d)
              = Err (ErrInvalidResourceID "")).
  { rewrite (locator_id d) by apply setFields_id.
    rewrite locator_unfold, Hid. reflexivity. }
  rewrite L. simpl.
  destruct (rsc.Delete client (rsc.Loc res) s1) as [de s3] eqn:De; simpl.
  repeat split; try discriminate.
  unfold schema.Id in *. rewrite setFields_id. exact Hid.
Qed.

Lemma create_locked_new_never_succeeds_witness :
  resourceDeploymentCreate happyClient (start newLockedDeployment 0)
  = (Returns (Some (ErrInvalidResourceID "")),
     mkWorld (setFields (rsc.ResFields sampleResource) newLockedDeployment) 2
       [(rsc.CallCreate "rs_cm" "deployment"
           (deploymentFields newLockedDeployment), None);
        (rsc.CallDelete sampleLocator, None)]).
Proof.
  refine (proj2 (proj2 (proj2 (create_locked_new_never_succeeds happyClient
                                 newLockedDeployment 0 _ _ _))));
    reflexivity.
Defined.

(** * Further properties of the package *)

(** ** The locator, read backwards *)

(** X1: a parsed identifier is its namespace, one ":" and its href, and
    neither component holds a ":". *)
Theorem locator_rebuilds_identifier (d : schema.ResourceData)
    (loc : rsc.Locator) :
  locator d = Ok loc ->
  schema.Id d = rsc.Namespace loc ++ ":" ++ rsc.Href loc
  /\ strings_Count ":"%char (rsc.Namespace loc) = 0
  /\ strings_Count ":"%char (rsc.Href loc) = 0
  /\ locator (schema.SetId (rsc.Namespace loc ++ ":" ++ rsc.Href loc) d)
     = Ok loc.
Proof.
  intros L. pose proof L as L'. apply locator_Ok_iff in L'.
  destruct (strings_Split_two _ _ _ _ L') as (E & Hn & Hh).
  repeat split; try assumption.
  replace (rsc.Namespace loc ++ ":" ++ rsc.Href loc) with (schema.Id d).
  rewrite <- L. apply locator_id. reflexivity.
Qed.

Lemma locator_rebuilds_identifier_witness :
  schema.Id existingDeployment = "rs_cm" ++ ":" ++ "/api/deployments/42".
Proof.
  refine (proj1 (locator_rebuilds_identifier existingDeployment sampleLocator
                   _)).
  reflexivity.
Defined.

(** ** Identifiers that do not parse *)

(** X2: when the identifier does not hold exactly one ":", read, delete, exists
    and update all return the invalid-identifier error without any remote
    call.  Read, delete and exists leave the world as it was; update has
    switched the partial mode on and does not switch it off. *)
Theorem invalid_identifier_no_remote_call {S} (handleError : HandleError)
    (client : rsc.Client S) (w : World S) :
  strings_Count ":"%char (schema.Id (data w)) <> 1 ->
  let e := ErrInvalidResourceID (schema.Id (data w)) in
  resourceRead client w = (Returns (Some e), w)
  /\ resourceDelete client w = (Returns (Some e), w)
  /\ resourceExists client w = (Returns (false, Some e), w)
  /\ resourceDeploymentUpdate handleError client w
     = (Returns (Some e),
        mkWorld (schema.Partial true (data w)) (remote w) (calls w)).
Proof.
  intros H. apply locator_Err_iff in H. simpl.
  rewrite resourceRead_run, resourceDelete_run, resourceExists_run,
    resourceDeploymentUpdate_run, H.
  repeat split; reflexivity.
Qed.

Lemma invalid_identifier_no_remote_call_witness :
  resourceDelete happyClient (start newLockedDeployment 0)
  = (Returns (Some (ErrInvalidResourceID "")), start newLockedDeployment 0).
Proof.
  refine (proj1 (proj2 (invalid_identifier_no_remote_call passError
                          happyClient (start newLockedDeployment 0) _))).
  simpl. lia.
Defined.

(** ** Copying the fields of a resource back *)

Lemma setFields_frame fields d :
  setFields fields d
  = schema.mkResourceData (schema.id d) (schema.raw (setFields fields d))
      (schema.partial d) (schema.partialKeys d) (schema.sch d)
      (schema.setWriter d).
Proof.
  revert d. induction fields as [|[k v] l IH]; intros d; simpl.
  - destruct d; reflexivity.
  - rewrite IH at 1. reflexivity.
Qed.

Lemma setFields_store_raw fields d :
  schema.setWriter d = storeWriter ->
  NoDup (map fst fields) ->
  schema.raw (setFields fields d) = list_to_map fields ∪ schema.raw d.
Proof.
  revert d. induction fields as [|[k v] l IH]; intros d Hw Hnd; simpl.
  - now rewrite (left_id_L ∅ (∪)).
  - simpl in Hnd. apply NoDup_cons in Hnd as [Hk Hnd].
    rewrite IH by assumption. simpl. rewrite Hw. unfold storeWriter.
    rewrite <- insert_union_l. apply symmetry, insert_union_r.
    apply not_elem_of_list_to_map_1. exact Hk.
Qed.

(** X3: after a successful [Get], [resourceRead] returns nil having made that
    one call, keeps the identifier, the schema and the partial mode, and
    has handed every field of the resource to the writer.  When the writer
    stores what it is given and the keys are distinct, as the keys of a Go
    map are, the attribute values afterwards are the returned fields laid
    over the previous values. *)
Theorem read_success_copies_fields {S} (client : rsc.Client S) (w : World S)
    (loc : rsc.Locator) (res : rsc.Resource) (s' : S) :
  locator (data w) = Ok loc ->
  rsc.Get client loc (remote w) = (Ok (Some res), s') ->
  let d' := setFields (rsc.ResFields res) (data w) in
  resourceRead client w
  = (Returns None,
     mkWorld d' s' (calls w ++ [(rsc.CallGet loc, None)]))
  /\ schema.Id d' = schema.Id (data w)
  /\ schema.sch d' = schema.sch (data w)
  /\ schema.partial d' = schema.partial (data w)
  /\ (schema.setWriter (data w) = storeWriter ->
      NoDup (map fst (rsc.ResFields res)) ->
      schema.raw d'
      = list_to_map (rsc.ResFields res) ∪ schema.raw (data w)).
Proof.
  intros L G. simpl. rewrite resourceRead_run, L, G. simpl.
  split; [reflexivity|]. split; [apply setFields_id|].
  split; [apply setFields_sch|].
  split; [rewrite setFields_frame; reflexivity|].
  apply setFields_store_raw.
Qed.

Lemma read_success_copies_fields_witness :
  resourceRead happyClient (start existingDeployment 0)
  = (Returns None,
     mkWorld (setFields (rsc.ResFields sampleResource) existingDeployment) 1
       [(rsc.CallGet sampleLocator, None)]).
Proof.
  refine (proj1 (read_success_copies_fields happyClient
                   (start existingDeployment 0) sampleLocator sampleResource 1
                   _ _));
    reflexivity.
Defined.



(** ** The existence check *)

(** X5: run with its client, [resourceExists] never touches the resource
    data and makes at most one remote call, a [Get]; it answers true, with
    a nil error, exactly when the identifier parses and [Get] returns a
    resource that is not nil without an error, and it never answers true
    together with an error. *)
Theorem exists_is_read_only {S} (client : rsc.Client S) (w : World S) :
  let out := resourceExists client w in
  data (snd out) = data w
  /\ (calls (snd out) = calls w
      \/ exists loc r,
           calls (snd out) = (calls w ++ [(rsc.CallGet loc, r)])%list)
  /\ (fst out = Returns (true, None) <->
      exists loc res s',
        locator (data w) = Ok loc
        /\ rsc.Get client loc (remote w) = (Ok (Some res), s'))
  /\ (forall e, fst out <> Returns (true, Some e)).
Proof.
  simpl. rewrite resourceExists_run.
  destruct (locator (data w)) as [loc|err] eqn:L.
  - destruct (rsc.Get client loc (remote w)) as [[[res|]|err] s'] eqn:G;
      simpl; (split; [reflexivity|]); (split; [right; eauto|]).
    + split; [|discriminate]. split; [intros _; eauto | reflexivity].
    + split; [|discriminate].
      split; [discriminate | intros (? & ? & ? & H & H'); congruence].
    + split; [|discriminate].
      split; [discriminate | intros (? & ? & ? & H & H'); congruence].
  - simpl. split; [reflexivity|]. split; [left; reflexivity|].
    split; [|discriminate].
    split; [discriminate | intros (? & ? & ? & H & _); discriminate H].
Qed.

(** X6: when [Get] answers a nil resource without an error, [resourceExists]
    reports (false, nil), whereas [resourceRead] dereferences the nil
    pointer and panics, after the call and with the resource data
    untouched. *)
Theorem nil_resource_read_panics {S} (client : rsc.Client S) (w : World S)
    (loc : rsc.Locator) (s' : S) :
  locator (data w) = Ok loc ->
  rsc.Get client loc (remote w) = (Ok None, s') ->
  let w' := mkWorld (data w) s' (calls w ++ [(rsc.CallGet loc, None)]) in
  resourceExists client w = (Returns (false, None), w')
  /\ resourceRead client w = (Panics, w').
Proof.
  intros L G. simpl. rewrite resourceExists_run, resourceRead_run, L, G.
  split; reflexivity.
Qed.

Lemma nil_resource_read_panics_witness :
  resourceRead nilClient (start existingDeployment 0)
  = (Panics,
     mkWorld existingDeployment 1 [(rsc.CallGet sampleLocator, None)]).
Proof.
  refine (proj2 (nil_resource_read_panics nilClient
                   (start existingDeployment 0) sampleLocator 1 _ _));
    reflexivity.
Defined.

(** ** More on create *)

(** X7: when the remote create fails, [resourceDeploymentCreate] returns that
    error after this one call, whether or not the lock was asked for: no
    lock script, no delete, and the resource data exactly as it was. *)
Theorem create_remote_failure {S} (client : rsc.Client S) (w : World S)
    (e : error) (s1 : S) :
  schema.sch (data w) = deploymentSchema ->
  rsc.Create client "rs_cm" "deployment" (deploymentFields (data w))
    (remote w) = (Err e, s1) ->
  resourceDeploymentCreate client w
  = (Returns (Some e),
     mkWorld (data w) s1
       (calls w ++ [(rsc.CallCreate "rs_cm" "deployment"
                       (deploymentFields (data w)), Some e)])).
Proof.
  intros Hsch C. rewrite (resourceDeploymentCreate_run client w Hsch).
  simpl. rewrite C. reflexivity.
Qed.

Lemma create_remote_failure_witness :
  resourceDeploymentCreate quotaClient (start newLockedDeployment 0)
  = (Returns (Some (ErrorString "quota exceeded")),
     mkWorld newLockedDeployment 1
       [(rsc.CallCreate "rs_cm" "deployment"
           (deploymentFields newLockedDeployment),
         Some (ErrorString "quota exceeded"))]).
Proof.
  refine (create_remote_failure quotaClient (start newLockedDeployment 0)
            (ErrorString "quota exceeded") 1 _ _);
    reflexivity.
Defined.

(** X8: without the lock flag a successful remote create is the only call:
    the callback copies the returned fields back, sets the identifier to
    namespace, ":" and href of the returned locator, and returns nil. *)
Theorem create_without_lock {S} (client : rsc.Client S) (w : World S)
    (res : rsc.Resource) (s1 : S) :
  schema.sch (data w) = deploymentSchema ->
  lockFlag (data w) = false ->
  rsc.Create client "rs_cm" "deployment" (deploymentFields (data w))
    (remote w) = (Ok (Some res), s1) ->
  resourceDeploymentCreate client w
  = (Returns None,
     mkWorld
       (schema.SetId
          (rsc.Namespace (rsc.Loc res) ++ ":" ++ rsc.Href (rsc.Loc res))
          (setFields (rsc.ResFields res) (data w)))
       s1
       (calls w ++ [(rsc.CallCreate "rs_cm" "deployment"
                       (deploymentFields (data w)), None)])).
Proof.
  intros Hsch Hl C. rewrite (resourceDeploymentCreate_run client w Hsch).
  simpl. rewrite C, Hl. reflexivity.
Qed.

Lemma create_without_lock_witness :
  resourceDeploymentCreate happyClient (start plainDeployment 0)
  = (Returns None,
     mkWorld
       (schema.SetId "rs_cm:/api/deployments/42"
          (setFields (rsc.ResFields sampleResource) plainDeployment))
       1
       [(rsc.CallCreate "rs_cm" "deployment"
           (deploymentFields plainDeployment), None)]).
Proof.
  refine (create_without_lock happyClient (start plainDeployment 0)
            sampleResource 1 _ _ _);
    reflexivity.
Defined.

(** X9: with the lock flag set and an identifier that parses, the lock step of
    create addresses the locator of that earlier identifier, not the one
    the remote create returned, and picks the lock or the unlock script
    from the value of "locked" after the returned fields were copied back.
    If the script succeeds the callback marks "locked" true, sets the new
    identifier and returns nil; if it fails the created deployment is
    deleted and the script's error returned. *)
Theorem create_lock_step_target {S} (client : rsc.Client S) (w : World S)
    (loc : rsc.Locator) (res : rsc.Resource) (s1 : S) :
  schema.sch (data w) = deploymentSchema ->
  lockFlag (data w) = true ->
  locator (data w) = Ok loc ->
  rsc.Create client "rs_cm" "deployment" (deploymentFields (data w))
    (remote w) = (Ok (Some res), s1) ->
  let d1 := setFields (rsc.ResFields res) (data w) in
  let script := if lockFlag d1 then "@res.lock()" else "@res.unlock()" in
  let created :=
    (rsc.CallCreate "rs_cm" "deployment" (deploymentFields (data w)),
     @None error) in
  let run := rsc.Run client loc script s1 in
  let del := rsc.Delete client (rsc.Loc res) (snd run) in
  resourceDeploymentCreate client w
  = match fst run with
    | None =>
        (Returns None,
         mkWorld
           (schema.SetId
              (rsc.Namespace (rsc.Loc res) ++ ":" ++ rsc.Href (rsc.Loc res))
              (schema.Set_ "locked" (VBool true) d1))
           (snd run)
           (calls w ++ [created; (rsc.CallRun loc script, None)]))
    | Some e =>
        (Returns (Some e),
         mkWorld d1 (snd del)
           (calls w ++ [created; (rsc.CallRun loc script, Some e);
                        (rsc.CallDelete (rsc.Loc res), fst del)]))
    end.
Proof.
  intros Hsch Hl L C. simpl.
  rewrite (resourceDeploymentCreate_run client w Hsch). simpl.
  rewrite C, Hl.
  rewrite updateLock_run by (simpl; rewrite setFields_sch; exact Hsch).
  simpl. rewrite (locator_id (data w)) by apply setFields_id. rewrite L.
  destruct (rsc.Run client loc _ s1) as [[e|] s2]; simpl.
  - destruct (rsc.Delete client (rsc.Loc res) s2) as [de s3]; simpl.
    rewrite <- !app_assoc. reflexivity.
  - rewrite <- app_assoc. reflexivity.
Qed.

Lemma create_lock_step_target_witness :
  resourceDeploymentCreate happyClient (start carriedDeployment 0)
  = (Returns None,
     mkWorld
       (schema.SetId "rs_cm:/api/deployments/42"
          (schema.Set_ "locked" (VBool true)
             (setFields (rsc.ResFields sampleResource) carriedDeployment)))
       2
       [(rsc.CallCreate "rs_cm" "deployment"
           (deploymentFields carriedDeployment), None);
        (rsc.CallRun otherLocator "@res.lock()", None)]).
Proof.
  refine (create_lock_step_target happyClient (start carriedDeployment 0)
            otherLocator sampleResource 1 _ _ _ _);
    reflexivity.
Defined.

Lemma lockFlag_setFields_false fields d :
  schema.sch d = deploymentSchema ->
  schema.setWriter d = storeWriter ->
  NoDup (map fst fields) ->
  In ("locked", VBool false) fields ->
  lockFlag (setFields fields d) = false.
Proof.
  intros Hsch Hw Hnd Hin.
  destruct (lockFlag (setFields fields d)) eqn:E; [|reflexivity].
  apply lockFlag_raw in E; [|rewrite setFields_sch; exact Hsch].
  rewrite setFields_store_raw in E by assumption.
  assert (Hl : (list_to_map fields : gmap string Value) !! "locked"
               = Some (VBool false)).
  { apply elem_of_list_to_map_1; [exact Hnd|]. now apply list_elem_of_In. }
  rewrite (lookup_union_Some_l _ _ _ _ Hl) in E. discriminate E.
Qed.

(** X10: the copy-back comes before the lock step.  When the resource data
    already carries an identifier that parses, the created resource reports
    "locked" false among its fields and the writer stores it, a create that
    asked for the lock runs the unlock script on the locator of that
    identifier, and runs no other script. *)
Theorem create_lock_script_after_copy_back {S} (client : rsc.Client S)
    (w : World S) (loc : rsc.Locator) (res : rsc.Resource) (s1 : S) :
  schema.sch (data w) = deploymentSchema ->
  schema.setWriter (data w) = storeWriter ->
  lockFlag (data w) = true ->
  locator (data w) = Ok loc ->
  rsc.Create client "rs_cm" "deployment" (deploymentFields (data w))
    (remote w) = (Ok (Some res), s1) ->
  NoDup (map fst (rsc.ResFields res)) ->
  In ("locked", VBool false) (rsc.ResFields res) ->
  exists r rest,
    calls (snd (resourceDeploymentCreate client w))
    = (calls w
       ++ (rsc.CallCreate "rs_cm" "deployment" (deploymentFields (data w)),
           None)
          :: (rsc.CallRun loc "@res.unlock()", r) :: rest)%list
    /\ existsb isRun rest = false.
Proof.
  intros Hsch Hw Hl L C Hnd Hin.
  rewrite (resourceDeploymentCreate_run client w Hsch). simpl.
  rewrite C, Hl.
  rewrite updateLock_run by (simpl; rewrite setFields_sch; exact Hsch).
  simpl. rewrite (locator_id (data w)) by apply setFields_id. rewrite L.
  rewrite (lockFlag_setFields_false _ _ Hsch Hw Hnd Hin).
  destruct (rsc.Run client loc "@res.unlock()" s1) as [[e|] s2]; simpl.
  - destruct (rsc.Delete client (rsc.Loc res) s2) as [de s3]; simpl.
    rewrite <- !app_assoc. eexists _, _. split; reflexivity.
  - rewrite <- app_assoc. eexists _, _. split; reflexivity.
Qed.

(** A created resource that reports itself unlocked. *)
Lemma create_lock_script_after_copy_back_witness :
  let reported :=
    rsc.mkResource sampleLocator
      [("name", VString "web"); ("locked", VBool false)] in
  let client :=
    fixedClient (Ok (Some reported)) (Ok (Some reported)) None None None in
  exists r rest,
    calls (snd (resourceDeploymentCreate client (start carriedDeployment 0)))
    = ([] ++ (rsc.CallCreate "rs_cm" "deployment"
                (deploymentFields carriedDeployment), None)
          :: (rsc.CallRun otherLocator "@res.unlock()", r) :: rest)%list
    /\ existsb isRun rest = false.
Proof.
  intros reported client.
  refine (create_lock_script_after_copy_back client
            (start carriedDeployment 0) otherLocator reported 1 _ _ _ _ _ _ _);
    try reflexivity.
  - simpl. apply NoDup_cons_2; [|apply NoDup_singleton].
    rewrite list_elem_of_singleton. discriminate.
  - simpl. right. left. reflexivity.
Defined.

Ltac exists_nil_rest :=
  eexists _, []; split; [reflexivity|]; simpl;
  repeat split; try lia; discriminate.

(** X11: whatever the client answers, create starts with the remote create for
    namespace "rs_cm" and type "deployment", makes at most two more calls,
    each a script run or a delete, and makes a delete only in runs that
    return an error. *)
Theorem create_call_shape {S} (client : rsc.Client S) (w : World S) :
  schema.sch (data w) = deploymentSchema ->
  let out := resourceDeploymentCreate client w in
  exists r rest,
    calls (snd out)
    = (calls w
       ++ (rsc.CallCreate "rs_cm" "deployment" (deploymentFields (data w)), r)
          :: rest)%list
    /\ List.length rest <= 2
    /\ forallb (fun ev => isRun ev || isDelete ev) rest = true
    /\ (existsb isDelete rest = true -> exists e, fst out = Returns (Some e)).
Proof.
  intros Hsch. simpl.
  rewrite (resourceDeploymentCreate_run client w Hsch). simpl.
  destruct (rsc.Create client "rs_cm" "deployment" (deploymentFields (data w))
              (remote w)) as [[[res|]|err] s1]; simpl.
  2,3: exists_nil_rest.
  destruct (lockFlag (data w)); [|exists_nil_rest].
  destruct (updateLock_effect client
              (mkWorld (setFields (rsc.ResFields res) (data w)) s1
                 (calls w ++ [(rsc.CallCreate "rs_cm" "deployment"
                                 (deploymentFields (data w)), None)])))
    as (e & w2 & U & D & T);
    [simpl; rewrite setFields_sch; exact Hsch|].
  rewrite U. simpl in T.
  destruct T as [(_ & -> & ->)|(loc & script & _ & T)].
  - simpl. destruct (rsc.Delete client (rsc.Loc res) s1) as [de s3]; simpl.
    rewrite <- app_assoc. eexists _, _. split; [reflexivity|].
    simpl. repeat split; eauto.
  - destruct e as [e|]; simpl.
    + destruct (rsc.Delete client (rsc.Loc res) (remote w2)) as [de s3]; simpl.
      rewrite T, <- !app_assoc. eexists _, _. split; [reflexivity|].
      simpl. repeat split; eauto.
    + rewrite T, <- app_assoc. eexists _, _. split; [reflexivity|].
      simpl. repeat split; eauto. discriminate.
Qed.

Lemma create_call_shape_witness :
  exists r rest,
    calls (snd (resourceDeploymentCreate refusingClient
                  (start carriedDeployment 0)))
    = ([] ++ (rsc.CallCreate "rs_cm" "deployment"
                (deploymentFields carriedDeployment), r) :: rest)%list
    /\ List.length rest <= 2.
Proof.
  destruct (create_call_shape refusingClient (start carriedDeployment 0)
              eq_refl) as (r & rest & H & Hlen & _).
  exists r, rest. split; assumption.
Defined.

(** ** Create followed by the other callbacks *)

Lemma locator_SetId_colon_free ident d ns href :
  ident = ns ++ ":" ++ href ->
  strings_Count ":"%char ns = 0 ->
  strings_Count ":"%char href = 0 ->
  locator (schema.SetId ident d) = Ok (rsc.mkLocator ns href).
Proof.
  intros -> Hn Hh. rewrite locator_unfold. simpl.
  change (":" ++ href) with (String ":"%char href).
  now rewrite (strings_Split_app _ _ _ Hn), (strings_Split_no_sep _ _ Hh).
Qed.

Lemma strings_Count_colon_href ns href :
  strings_Count ":"%char href <> 0 ->
  strings_Count ":"%char (ns ++ ":" ++ href) <> 1.
Proof.
  intros H. change (":" ++ href) with (String ":"%char href).
  rewrite strings_Count_app. simpl. lia.
Qed.

(** X12: after a create without the lock, on a locator whose namespace and href
    hold no ":", the identifier left in the resource data parses to the
    created locator, so that a following read or delete addresses exactly
    the created deployment. *)
Theorem created_deployment_is_addressed {S} (client : rsc.Client S)
    (w : World S) (res : rsc.Resource) (s1 : S) :
  schema.sch (data w) = deploymentSchema ->
  lockFlag (data w) = false ->
  rsc.Create client "rs_cm" "deployment" (deploymentFields (data w))
    (remote w) = (Ok (Some res), s1) ->
  strings_Count ":"%char (rsc.Namespace (rsc.Loc res)) = 0 ->
  strings_Count ":"%char (rsc.Href (rsc.Loc res)) = 0 ->
  let w' := snd (resourceDeploymentCreate client w) in
  fst (resourceDeploymentCreate client w) = Returns None
  /\ locator (data w') = Ok (rsc.Loc res)
  /\ calls (snd (resourceRead client w'))
     = (calls w'
        ++ [(rsc.CallGet (rsc.Loc res),
             errOf (fst (rsc.Get client (rsc.Loc res) s1)))])%list
  /\ calls (snd (resourceDelete client w'))
     = (calls w'
        ++ [(rsc.CallDelete (rsc.Loc res),
             fst (rsc.Delete client (rsc.Loc res) s1))])%list.
Proof.
  intros Hsch Hl C Hn Hh. simpl.
  rewrite (resourceDeploymentCreate_run client w Hsch). simpl.
  rewrite C, Hl. simpl.
  assert (L : locator
                (schema.SetId
                   (rsc.Namespace (rsc.Loc res) ++ ":"
                    ++ rsc.Href (rsc.Loc res))
                   (setFields (rsc.ResFields res) (data w)))
              = Ok (rsc.Loc res)).
  { rewrite (locator_SetId_colon_free _ _ _ _ eq_refl Hn Hh).
    destruct (rsc.Loc res); reflexivity. }
  split; [reflexivity|]. split; [exact L|].
  rewrite resourceRead_run, resourceDelete_run. simpl. rewrite L. split.
  - destruct (rsc.Get client (rsc.Loc res) s1) as [[[r|]|e] s2]; simpl;
      try reflexivity.
    destruct (bool_decide (e = ErrNotFound)); reflexivity.
  - destruct (rsc.Delete client (rsc.Loc res) s1) as [e s2]. reflexivity.
Qed.

Lemma created_deployment_is_addressed_witness :
  locator (data (snd (resourceDeploymentCreate happyClient
                        (start plainDeployment 0))))
  = Ok sampleLocator.
Proof.
  refine (proj1 (proj2 (created_deployment_is_addressed happyClient
                          (start plainDeployment 0) sampleResource 1
                          _ _ _ _ _)));
    reflexivity.
Defined.

(** X13: when the href of the created locator holds a ":", create without the
    lock still returns nil, but the identifier it leaves does not parse:
    every following read, delete and exists returns the invalid-identifier
    error without reaching the client. *)
Theorem created_colon_href_is_lost {S} (client : rsc.Client S)
    (w : World S) (res : rsc.Resource) (s1 : S) :
  schema.sch (data w) = deploymentSchema ->
  lockFlag (data w) = false ->
  rsc.Create client "rs_cm" "deployment" (deploymentFields (data w))
    (remote w) = (Ok (Some res), s1) ->
  strings_Count ":"%char (rsc.Href (rsc.Loc res)) <> 0 ->
  let w' := snd (resourceDeploymentCreate client w) in
  let e :=
    ErrInvalidResourceID
      (rsc.Namespace (rsc.Loc res) ++ ":" ++ rsc.Href (rsc.Loc res)) in
  fst (resourceDeploymentCreate client w) = Returns None
  /\ resourceRead client w' = (Returns (Some e), w')
  /\ resourceDelete client w' = (Returns (Some e), w')
  /\ resourceExists client w' = (Returns (false, Some e), w').
Proof.
  intros Hsch Hl C Hh. simpl.
  rewrite (resourceDeploymentCreate_run client w Hsch). simpl.
  rewrite C, Hl. simpl.
  pose proof (strings_Count_colon_href (rsc.Namespace (rsc.Loc res)) _ Hh)
    as Hc.
  pose proof (proj1 (locator_Err_iff
                       (schema.SetId
                          (rsc.Namespace (rsc.Loc res) ++ ":"
                           ++ rsc.Href (rsc.Loc res))
                          (setFields (rsc.ResFields res) (data w)))) Hc)
    as L.
  simpl in L.
  rewrite resourceRead_run, resourceDelete_run, resourceExists_run.
  simpl. rewrite L. repeat split; reflexivity.
Qed.

Lemma created_colon_href_is_lost_witness :
  let w' := snd (resourceDeploymentCreate colonClient
                   (start plainDeployment 0)) in
  resourceDelete colonClient w'
  = (Returns (Some (ErrInvalidResourceID "rs_cm:/api/clouds/1:2")), w').
Proof.
  refine (proj1 (proj2 (proj2 (created_colon_href_is_lost colonClient
                                 (start plainDeployment 0) colonResource 1
                                 _ _ _ _))));
    try reflexivity.
  simpl. lia.
Defined.

(** ** The identifier that create writes *)

Lemma locator_SetId_written (d : schema.ResourceData) (loc : rsc.Locator) :
  let d' := schema.SetId (rsc.Namespace loc ++ ":" ++ rsc.Href loc) d in
  (strings_Count ":"%char (rsc.Namespace loc) = 0 ->
   strings_Count ":"%char (rsc.Href loc) = 0 ->
   locator d' = Ok loc)
  /\ (strings_Count ":"%char (rsc.Href loc) <> 0 ->
      locator d' = Err (ErrInvalidResourceID (schema.Id d'))).
Proof.
  simpl. split.
  - intros Hn Hh. rewrite (locator_SetId_colon_free _ _ _ _ eq_refl Hn Hh).
    destruct loc; reflexivity.
  - intros Hh.
    apply (proj1 (locator_Err_iff
                    (schema.SetId
                       (rsc.Namespace loc ++ ":" ++ rsc.Href loc) d))).
    apply strings_Count_colon_href. exact Hh.
Qed.

(** C6: in every run of create that returns nil, the identifier it has
    written is the namespace of the returned locator, ":" and its href.
    For every returned locator whose namespace and href hold no ":",
    parsing that identifier yields back exactly the locator; when the href
    holds a ":", the identifier that create has written fails to parse. *)
Theorem created_id_roundtrip {S} (client : rsc.Client S) (w : World S)
    (res : rsc.Resource) (s1 : S) :
  schema.sch (data w) = deploymentSchema ->
  rsc.Create client "rs_cm" "deployment" (deploymentFields (data w))
    (remote w) = (Ok (Some res), s1) ->
  fst (resourceDeploymentCreate client w) = Returns None ->
  let loc := rsc.Loc res in
  let d' := data (snd (resourceDeploymentCreate client w)) in
  schema.Id d' = rsc.Namespace loc ++ ":" ++ rsc.Href loc
  /\ (strings_Count ":"%char (rsc.Namespace loc) = 0 ->
      strings_Count ":"%char (rsc.Href loc) = 0 ->
      locator d' = Ok loc)
  /\ (strings_Count ":"%char (rsc.Href loc) <> 0 ->
      locator d' = Err (ErrInvalidResourceID (schema.Id d'))).
Proof.
  intros Hsch C. simpl.
  rewrite (resourceDeploymentCreate_run client w Hsch). simpl. rewrite C.
  destruct (lockFlag (data w)).
  - destruct (updateLock client _) as [[[err|]|] w2]; simpl.
    + destruct (rsc.Delete client (rsc.Loc res) (remote w2)); simpl.
      intros H; discriminate H.
    + intros _. split; [reflexivity|]. apply locator_SetId_written.
    + intros H; discriminate H.
  - simpl. intros _. split; [reflexivity|]. apply locator_SetId_written.
Qed.

Lemma created_id_roundtrip_witness :
  locator (data (snd (resourceDeploymentCreate happyClient
                        (start plainDeployment 0))))
  = Ok sampleLocator
  /\ locator (data (snd (resourceDeploymentCreate colonClient
                           (start plainDeployment 0))))
     = Err (ErrInvalidResourceID "rs_cm:/api/clouds/1:2").
Proof.
  split.
  - refine (proj1 (proj2 (created_id_roundtrip happyClient
                            (start plainDeployment 0) sampleResource 1
                            _ _ _)) _ _);
      reflexivity.
  - refine (proj2 (proj2 (created_id_roundtrip colonClient
                            (start plainDeployment 0) colonResource 1
                            _ _ _)) _);
      try reflexivity.
    simpl. lia.
Defined.

(** ** The lock helper and update *)

(** X14: on deployment data with an identifier that parses, [updateLock] makes
    exactly one call: it runs "@res.lock()" when the boolean true is stored
    under "locked" and "@res.unlock()" in every other case (false, unset,
    or a value that is not a boolean), returns what the client answers and
    leaves the resource data alone. *)
Theorem updateLock_script {S} (client : rsc.Client S) (w : World S)
    (loc : rsc.Locator) :
  schema.sch (data w) = deploymentSchema ->
  locator (data w) = Ok loc ->
  let script :=
    if decide (schema.raw (data w) !! "locked" = Some (VBool true))
    then "@res.lock()" else "@res.unlock()" in
  let run := rsc.Run client loc script (remote w) in
  updateLock client w
  = (Returns (fst run),
     mkWorld (data w) (snd run)
       (calls w ++ [(rsc.CallRun loc script, fst run)])).
Proof.
  intros Hsch L. simpl. rewrite (updateLock_run client w Hsch), L. simpl.
  pose proof (lockFlag_raw _ Hsch) as F.
  destruct (lockFlag (data w)).
  - rewrite decide_True by (apply F; reflexivity).
    destruct (rsc.Run client loc "@res.lock()" (remote w)); reflexivity.
  - rewrite decide_False by (intros H; apply F in H; discriminate H).
    destruct (rsc.Run client loc "@res.unlock()" (remote w)); reflexivity.
Qed.

Lemma updateLock_script_witness :
  updateLock happyClient
    (start (deploymentData "rs_cm:/api/deployments/42"
              [("name", VString "web")]) 0)
  = (Returns None,
     mkWorld (deploymentData "rs_cm:/api/deployments/42"
                [("name", VString "web")]) 1
       [(rsc.CallRun sampleLocator "@res.unlock()", None)]).
Proof.
  refine (updateLock_script happyClient
            (start (deploymentData "rs_cm:/api/deployments/42"
                      [("name", VString "web")]) 0) sampleLocator _ _);
    reflexivity.
Defined.

(** X15: a successful update runs the lock or unlock script, then sends exactly
    the fields of [deploymentFields] to the same locator, and returns nil.
    It leaves the identifier and the attribute values alone; it records
    "locked" as a partial key and ends with the partial mode off. *)
Theorem update_success {S} (handleError : HandleError)
    (client : rsc.Client S) (w : World S) (loc : rsc.Locator) (s1 s2 : S) :
  schema.sch (data w) = deploymentSchema ->
  locator (data w) = Ok loc ->
  let script :=
    if lockFlag (data w) then "@res.lock()" else "@res.unlock()" in
  let fields := deploymentFields (data w) in
  rsc.Run client loc script (remote w) = (None, s1) ->
  rsc.Update client loc fields s1 = (None, s2) ->
  let out := resourceDeploymentUpdate handleError client w in
  fst out = Returns None
  /\ remote (snd out) = s2
  /\ calls (snd out)
     = (calls w ++ [(rsc.CallRun loc script, None);
                    (rsc.CallUpdate loc fields, None)])%list
  /\ data (snd out)
     = schema.mkResourceData (schema.id (data w)) (schema.raw (data w)) false
         (schema.partialKeys (data w) ++ ["locked"]) (schema.sch (data w))
         (schema.setWriter (data w)).
Proof.
  intros Hsch L script fields R U. subst script fields. simpl.
  rewrite resourceDeploymentUpdate_run, L. cbv zeta.
  rewrite updateLock_run by exact Hsch. simpl.
  change (locator (schema.Partial true (data w))) with (locator (data w)).
  change (lockFlag (schema.Partial true (data w))) with (lockFlag (data w)).
  rewrite L, R. simpl.
  change (deploymentFields
            (schema.SetPartial "locked" (schema.Partial true (data w))))
    with (deploymentFields (data w)).
  rewrite U. simpl. rewrite <- app_assoc. repeat split; reflexivity.
Qed.

Lemma update_success_witness :
  calls (snd (resourceDeploymentUpdate passError happyClient
                (start existingDeployment 0)))
  = [(rsc.CallRun sampleLocator "@res.lock()", None);
     (rsc.CallUpdate sampleLocator (deploymentFields existingDeployment),
      None)].
Proof.
  refine (proj1 (proj2 (proj2 (update_success passError happyClient
                                 (start existingDeployment 0) sampleLocator
                                 1 2 _ _ _ _))));
    reflexivity.
Defined.

(** X16: when the lock or unlock script fails, update makes no [Update] call:
    it hands the script's error to the error handler, with the resource
    data in partial mode and "locked" not recorded as a partial key, and
    returns what the handler answers. *)
Theorem update_lock_failure_skips_update {S} (handleError : HandleError)
    (client : rsc.Client S) (w : World S) (loc : rsc.Locator) (e : error)
    (s1 : S) :
  schema.sch (data w) = deploymentSchema ->
  locator (data w) = Ok loc ->
  let script :=
    if lockFlag (data w) then "@res.lock()" else "@res.unlock()" in
  rsc.Run client loc script (remote w) = (Some e, s1) ->
  let handled := handleError (schema.Partial true (data w)) e in
  resourceDeploymentUpdate handleError client w
  = (Returns (snd handled),
     mkWorld (fst handled) s1
       (calls w ++ [(rsc.CallRun loc script, Some e)])).
Proof.
  intros Hsch L script R. subst script. simpl.
  rewrite resourceDeploymentUpdate_run, L. cbv zeta.
  rewrite updateLock_run by exact Hsch. simpl.
  change (locator (schema.Partial true (data w))) with (locator (data w)).
  change (lockFlag (schema.Partial true (data w))) with (lockFlag (data w)).
  rewrite L, R. unfold callHandleError. simpl.
  destruct (handleError (schema.Partial true (data w)) e); reflexivity.
Qed.

Lemma update_lock_failure_skips_update_witness :
  resourceDeploymentUpdate passError refusingClient
    (start existingDeployment 0)
  = (Returns (Some (ErrorString "lock refused")),
     mkWorld (schema.Partial true existingDeployment) 1
       [(rsc.CallRun sampleLocator "@res.lock()",
         Some (ErrorString "lock refused"))]).
Proof.
  refine (update_lock_failure_skips_update passError refusingClient
            (start existingDeployment 0) sampleLocator
            (ErrorString "lock refused") 1 _ _ _);
    reflexivity.
Defined.

(** X17: when the script succeeds and the field update fails, the lock change
    has already happened remotely and "locked" is recorded as a partial
    key: the error handler receives the data in partial mode with that key,
    and update returns what the handler answers. *)
Theorem update_field_failure_keeps_lock {S} (handleError : HandleError)
    (client : rsc.Client S) (w : World S) (loc : rsc.Locator) (e : error)
    (s1 s2 : S) :
  schema.sch (data w) = deploymentSchema ->
  locator (data w) = Ok loc ->
  let script :=
    if lockFlag (data w) then "@res.lock()" else "@res.unlock()" in
  let fields := deploymentFields (data w) in
  rsc.Run client loc script (remote w) = (None, s1) ->
  rsc.Update client loc fields s1 = (Some e, s2) ->
  let d2 := schema.SetPartial "locked" (schema.Partial true (data w)) in
  let handled := handleError d2 e in
  resourceDeploymentUpdate handleError client w
  = (Returns (snd handled),
     mkWorld (fst handled) s2
       (calls w ++ [(rsc.CallRun loc script, None);
                    (rsc.CallUpdate loc fields, Some e)]))
  /\ schema.partial d2 = true
  /\ schema.partialKeys d2 = (schema.partialKeys (data w) ++ ["locked"])%list.
Proof.
  intros Hsch L script fields R U. subst script fields. simpl.
  rewrite resourceDeploymentUpdate_run, L. cbv zeta.
  rewrite updateLock_run by exact Hsch. simpl.
  change (locator (schema.Partial true (data w))) with (locator (data w)).
  change (lockFlag (schema.Partial true (data w))) with (lockFlag (data w)).
  rewrite L, R. simpl.
  change (deploymentFields
            (schema.SetPartial "locked" (schema.Partial true (data w))))
    with (deploymentFields (data w)).
  rewrite U. unfold callHandleError. simpl.
  destruct (handleError _ e); simpl. rewrite <- app_assoc.
  repeat split; reflexivity.
Qed.

Lemma update_field_failure_keeps_lock_witness :
  resourceDeploymentUpdate passError staleClient (start existingDeployment 0)
  = (Returns (Some (ErrorString "stale")),
     mkWorld
       (schema.SetPartial "locked" (schema.Partial true existingDeployment))
       2
       [(rsc.CallRun sampleLocator "@res.lock()", None);
        (rsc.CallUpdate sampleLocator (deploymentFields existingDeployment),
         Some (ErrorString "stale"))]).
Proof.
  refine (proj1 (update_field_failure_keeps_lock passError staleClient
                   (start existingDeployment 0) sampleLocator
                   (ErrorString "stale") 1 2 _ _ _ _));
    reflexivity.
Defined.

(** ** The values sent and the schema *)

Lemma Get_string_attribute (d : schema.ResourceData) (k : string) :
  schema.sch d = deploymentSchema ->
  k = "name" \/ In k optionalKeys ->
  schema.Get d k
  = VString match schema.raw d !! k with
            | Some (VString s) => s
            | _ => ""
            end.
Proof.
  intros Hsch Hk. unfold schema.Get, schema.stored. rewrite Hsch.
  assert (Ht : exists sc, deploymentSchema !! k = Some sc
                          /\ schema.Type_ sc = schema.TypeString).
  { destruct Hk as [->|[<-|[<-|[<-|[]]]]]; eexists; split; reflexivity. }
  destruct Ht as (sc & -> & Ht). rewrite Ht.
  destruct (schema.raw d !! k) as [[| b | s]|]; reflexivity.
Qed.

(** X18: [deploymentFields] sends the name as it is stored, and as the empty
    string when no string is stored under "name"; every optional value it
    sends is the stored one, a string other than "".  An optional attribute
    that is unset or empty is therefore left out, never sent as empty. *)
Theorem deploymentFields_values (d : schema.ResourceData) :
  schema.sch d = deploymentSchema ->
  deploymentFields d !! "name"
  = Some (VString match schema.raw d !! "name" with
                  | Some (VString s) => s
                  | _ => ""
                  end)
  /\ (forall k v,
        In k optionalKeys ->
        deploymentFields d !! k = Some v ->
        schema.raw d !! k = Some v /\ exists s, v = VString s /\ s <> "")
  /\ (forall k,
        In k optionalKeys ->
        schema.raw d !! k = None \/ schema.raw d !! k = Some (VString "") ->
        deploymentFields d !! k = None).
Proof.
  intros Hsch. split; [|split].
  - rewrite deploymentFields_lookup. simpl.
    rewrite (Get_string_attribute d "name" Hsch) by (left; reflexivity).
    reflexivity.
  - intros k v Hk. rewrite (deploymentFields_optional d k Hk).
    destruct (snd (schema.GetOk d k)) eqn:E; [|discriminate].
    apply (GetOk_string_attribute d k Hsch) in E; [|right; exact Hk].
    destruct E as (s & Hs & Hne).
    rewrite (Get_string_attribute d k Hsch), Hs by (right; exact Hk).
    intros H. injection H as <-. eauto.
  - intros k Hk Hraw. rewrite (deploymentFields_optional d k Hk).
    destruct (snd (schema.GetOk d k)) eqn:E; [|reflexivity].
    apply (GetOk_string_attribute d k Hsch) in E; [|right; exact Hk].
    destruct E as (s & Hs & Hne).
    destruct Hraw as [H|H]; rewrite H in Hs; congruence.
Qed.

Lemma deploymentFields_values_witness :
  deploymentFields (deploymentData "" [("description", VString "")])
  !! "name" = Some (VString "")
  /\ deploymentFields (deploymentData "" [("description", VString "")])
     !! "description" = None.
Proof.
  pose proof (deploymentFields_values
                (deploymentData "" [("description", VString "")]) eq_refl)
    as (Hname & _ & Hnone).
  split; [exact Hname|].
  apply Hnone; [left; reflexivity | right; reflexivity].
Defined.

Lemma deploymentSchema_keys (k : string) (sc : schema.Schema) :
  deploymentSchema !! k = Some sc ->
  In (k, sc)
    [ ("name",
       schema.mkSchema "name of deployment" schema.TypeString
         true false "" false None);
      ("description",
       schema.mkSchema "description of deployment" schema.TypeString
         false true "" false None);
      ("resource_group_href",
       schema.mkSchema
         "href of the Windows Azure Resource Group attached to the deployment"
         schema.TypeString false true "" false None);
      ("locked",
       schema.mkSchema "whether deployment is locked" schema.TypeBool
         false true "" false None);
      ("server_tag_scope",
       schema.mkSchema
         "routing scope for tags for servers in the deployment"
         schema.TypeString false true "deployment" true
         (Some server_tag_scope_ValidateFunc)) ].
Proof.
  intros H. apply list_elem_of_In.
  apply (elem_of_list_to_map_2 _ _ _ H).
Qed.

(** X19: the deployment schema is well formed: every attribute is either
    required or optional and not both, "name" is the only required one,
    "locked" the only boolean, "server_tag_scope" the only one that forces
    a new resource, and wherever a validation callback is present it
    accepts the attribute's input default. *)
Theorem deploymentSchema_well_formed (k : string) (sc : schema.Schema) :
  deploymentSchema !! k = Some sc ->
  schema.Required sc = negb (schema.Optional sc)
  /\ (schema.Required sc = true <-> k = "name")
  /\ (schema.Type_ sc = schema.TypeBool <-> k = "locked")
  /\ (schema.ForceNew sc = true <-> k = "server_tag_scope")
  /\ (forall f, schema.ValidateFunc sc = Some f ->
                f (VString (schema.InputDefault sc)) k = ([], [])).
Proof.
  intros H. apply deploymentSchema_keys in H.
  simpl in H.
  destruct H as [H|[H|[H|[H|[H|[]]]]]]; injection H as <- <-; simpl;
    repeat split; intros; try reflexivity; try discriminate.
  match goal with Hf : Some _ = Some _ |- _ => injection Hf as <- end.
  reflexivity.
Qed.

Lemma deploymentSchema_well_formed_witness :
  server_tag_scope_ValidateFunc (VString "deployment") "server_tag_scope"
  = ([], []).
Proof.
  refine (proj2 (proj2 (proj2 (proj2
            (deploymentSchema_well_formed "server_tag_scope"
               (schema.mkSchema
                  "routing scope for tags for servers in the deployment"
                  schema.TypeString false true "deployment" true
                  (Some server_tag_scope_ValidateFunc)) _))))
            server_tag_scope_ValidateFunc _);
    reflexivity.
Defined.

(** X20: every key that [deploymentFields] sends is an attribute the schema
    declares with the string type. *)
Theorem deploymentFields_keys_declared (d : schema.ResourceData) (k : string) :
  is_Some (deploymentFields d !! k) ->
  exists sc,
    deploymentSchema !! k = Some sc /\ schema.Type_ sc = schema.TypeString.
Proof.
  rewrite deploymentFields_lookup.
  destruct (decide (k = "name")) as [->|_].
  { intros _. eexists. split; reflexivity. }
  destruct (decide (In k optionalKeys)) as [Hk|_].
  - intros _. destruct Hk as [<-|[<-|[<-|[]]]]; eexists; split; reflexivity.
  - intros [? H]. discriminate H.
Qed.

Lemma deploymentFields_keys_declared_witness :
  exists sc,
    deploymentSchema !! "description" = Some sc
    /\ schema.Type_ sc = schema.TypeString.
Proof.
  apply (deploymentFields_keys_declared plainDeployment "description").
  eexists. reflexivity.
Defined.
